(** * keep-me-alive: the server ping monitor of [main.py]

    A shallow embedding of [ping_server] and [ping_all_servers], with the
    Python values, exceptions and effects they rely on, followed by the
    properties of the probe and of the run over all servers. *)

From Stdlib Require Import ZArith String Ascii List Lia SpecFloat.
From stdpp Require Import gmap strings pretty.

Set Warnings "-register-all".
Local Open Scope string_scope.
Local Open Scope Z_scope.
Local Open Scope list_scope.

(** ** Python values *)

(** The values that reach the program: what [response.json()] can return
    (None, bool, int, float, str, list, dict with string keys) and what the
    program stores in its result dictionaries.  A float is an IEEE 754
    binary64 number, given by its sign, mantissa and exponent. *)
Inductive pyval :=
| PNone
| PBool (b : bool)
| PInt (z : Z)
| PFloat (f : spec_float)
| PStr (s : string)
| PList (l : list pyval)
| PDict (d : gmap string pyval).

(** A Python dict with string keys. *)
Abbreviation pydict := (gmap string pyval).

(** Truth value of an object, as [if r["success"]] tests it. *)
Definition truthy (v : pyval) : bool :=
  match v with
  | PNone => false
  | PBool b => b
  | PInt z => negb (z =? 0)
  | PFloat f =>
      match f with
      | S754_zero _ => false
      | _ => true
      end
  | PStr s => negb (String.eqb s "")
  | PList l => match l with [] => false | _ => true end
  | PDict d => negb (bool_decide (d = ∅))
  end.

(** ** Exceptions *)

(** The exception classes the program names or meets, all derived from
    [Exception].  [E_Exception] stands for any other class derived from
    [Exception].  [KeyboardInterrupt] and [SystemExit], which are not, come
    with the faults of the environment ([raised], [Faulty]). *)
Inductive exn_class :=
| E_Exception
| E_Timeout            (* requests.exceptions.Timeout *)
| E_ReadTimeout        (* requests.exceptions.ReadTimeout *)
| E_ConnectTimeout     (* requests.exceptions.ConnectTimeout *)
| E_ConnectionError    (* requests.exceptions.ConnectionError *)
| E_SSLError           (* requests.exceptions.SSLError *)
| E_ProxyError         (* requests.exceptions.ProxyError *)
| E_JSONDecodeError    (* json.JSONDecodeError *)
| E_ValueError
| E_TypeError
| E_OverflowError
| E_KeyError.

Global Instance exn_class_eq_dec : EqDecision exn_class.
Proof. solve_decision. Defined.

(** Direct base classes, up to [Exception]. *)
Definition bases (c : exn_class) : list exn_class :=
  match c with
  | E_Exception => []
  | E_ReadTimeout => [E_Timeout]
  | E_ConnectTimeout => [E_ConnectionError; E_Timeout]
  | E_SSLError | E_ProxyError => [E_ConnectionError]
  | E_JSONDecodeError => [E_ValueError]
  | _ => [E_Exception]
  end.

(** [issubclass c base]: the class hierarchy has depth at most three. *)
Definition issubclass (c base : exn_class) : bool :=
  bool_decide (c = base)
  || bool_decide (base = E_Exception)
  || existsb (fun b => bool_decide (b = base)) (bases c)
  || existsb (fun b => existsb (fun b' => bool_decide (b' = base)) (bases b))
       (bases c).

Record exn := mk_exn {
  exn_cls : exn_class;
  exn_str : string       (* str(e) *)
}.

(** ** Text *)

(** A printed line is a sequence of fragments: text the program builds, and
    [str(v)] of a value whose text form is produced by the interpreter
    (floats in shortest-repr form, lists, dicts) and is kept symbolic. *)
Inductive frag :=
| Text (s : string)
| StrOf (v : pyval).

Definition line := list frag.

(** [str(v)] inside an f-string. *)
Definition py_str (v : pyval) : line :=
  match v with
  | PStr s => [Text s]
  | PInt z => [Text (pretty z)]
  | PBool b => [Text (if b then "True" else "False")]
  | PNone => [Text "None"]
  | _ => [StrOf v]
  end.

(** An f-string: the pieces in order, adjacent texts joined. *)
Fixpoint fstr (pieces : line) : line :=
  match pieces with
  | [] => []
  | Text s :: rest =>
      match fstr rest with
      | Text s' :: rest' => Text (s +:+ s') :: rest'
      | rest' => Text s :: rest'
      end
  | StrOf v :: rest => StrOf v :: fstr rest
  end.

(** [s * n] on strings. *)
Fixpoint str_mul (s : string) (n : nat) : string :=
  match n with
  | O => ""
  | S n' => s +:+ str_mul s n'
  end.

(** ** Number formatting *)

Module Fmt.

(** [num / den] rounded to the nearest integer, ties to even
    ([0 <= num], [0 < den]). *)
Definition round_half_even (num den : Z) : Z :=
  let q := num / den in
  let r := num mod den in
  match 2 * r ?= den with
  | Lt => q
  | Gt => q + 1
  | Eq => if Z.even q then q else q + 1
  end.

(** Zero padding on the left up to [width] characters. *)
Definition zero_pad (width : nat) (s : string) : string :=
  str_mul "0" (width - String.length s) +:+ s.

(** The scaled integer [q = round (x * 10^prec)] written in fixed point. *)
Definition fixed_point (prec : nat) (q : Z) : string :=
  let ds := zero_pad (S prec) (pretty q) in
  let n := (String.length ds - prec)%nat in
  match prec with
  | O => ds
  | _ => substring 0 n ds +:+ "." +:+ substring n prec ds
  end.

Definition sign_text (s : bool) : string := if s then "-" else "".

(** [format(x, ".<prec>f")] for a float: the exact binary value rounded
    to [prec] decimals, ties to even. *)
Definition format_float (prec : nat) (x : spec_float) : string :=
  match x with
  | S754_nan => "nan"
  | S754_infinity s => sign_text s +:+ "inf"
  | S754_zero s => sign_text s +:+ fixed_point prec 0
  | S754_finite s m e =>
      let num := Z.pos m * 10 ^ Z.of_nat prec * 2 ^ Z.max e 0 in
      let den := 2 ^ Z.max (- e) 0 in
      sign_text s +:+ fixed_point prec (round_half_even num den)
  end.

(** [float(z)] for an int: nearest binary64, ties to even; [None] when
    the int is too large (OverflowError). *)
Definition int_to_float (z : Z) : option spec_float :=
  match binary_normalize 53 1024 z 0 false with
  | S754_infinity _ => None
  | f => Some f
  end.

End Fmt.

(** [format(v, ".<prec>f")], which an f-string [{v:.<prec>f}] calls. *)
Definition py_format_f (prec : nat) (v : pyval) : exn + string :=
  match v with
  | PFloat f => inr (Fmt.format_float prec f)
  | PInt z =>
      match Fmt.int_to_float z with
      | Some f => inr (Fmt.format_float prec f)
      | None => inl (mk_exn E_OverflowError "int too large to convert to float")
      end
  | PBool b =>
      match Fmt.int_to_float (if b then 1 else 0) with
      | Some f => inr (Fmt.format_float prec f)
      | None => inl (mk_exn E_OverflowError "int too large to convert to float")
      end
  | PStr _ =>
      inl (mk_exn E_ValueError "Unknown format code 'f' for object of type 'str'")
  | PNone =>
      inl (mk_exn E_TypeError "unsupported format string passed to NoneType.__format__")
  | PList _ =>
      inl (mk_exn E_TypeError "unsupported format string passed to list.__format__")
  | PDict _ =>
      inl (mk_exn E_TypeError "unsupported format string passed to dict.__format__")
  end.

(** ** Dates *)

Record datetime := mk_datetime {
  year : Z; month : Z; day : Z;
  hour : Z; minute : Z; second : Z; microsecond : Z
}.

(** [d.isoformat(sep)]; [str(d)] is [d.isoformat(" ")]. *)
Definition isoformat (sep : string) (d : datetime) : string :=
  Fmt.zero_pad 4 (pretty (year d)) +:+ "-" +:+
  Fmt.zero_pad 2 (pretty (month d)) +:+ "-" +:+
  Fmt.zero_pad 2 (pretty (day d)) +:+ sep +:+
  Fmt.zero_pad 2 (pretty (hour d)) +:+ ":" +:+
  Fmt.zero_pad 2 (pretty (minute d)) +:+ ":" +:+
  Fmt.zero_pad 2 (pretty (second d)) +:+
  (if microsecond d =? 0 then ""
   else "." +:+ Fmt.zero_pad 6 (pretty (microsecond d))).

(** ** The world and the effects of the program *)

(** What [requests.get] hands back: status, elapsed time in seconds
    ([response.elapsed.total_seconds()]), body text, and what
    [response.json()] does with the body. *)
Inductive json_outcome :=
| JsonValue (v : pyval)
| JsonDecodeError (msg : string).

Record response := mk_response {
  status_code : Z;
  elapsed_seconds : spec_float;
  text : string;
  json_body : json_outcome
}.

Inductive get_outcome :=
| Responded (r : response)
| Failed (e : exn).

(** The outside world: the answer to the n-th call of [requests.get], for
    its url and timeout, and the n-th reading of the clock. *)
Record world := mk_world {
  http : nat -> string -> Z -> get_outcome;
  clock : nat -> datetime
}.

(** The effects so far: the GET requests issued (url, timeout), the number
    of clock readings, and the lines printed, all oldest first. *)
Record state := mk_state {
  net_calls : list (string * Z);
  clock_reads : nat;
  stdout : list line
}.

Definition initial : state := mk_state [] 0 [].

(** A computation returns a value or raises, and leaves a state. *)
Inductive res (A : Type) :=
| Ret (a : A)
| Raise (e : exn).
Arguments Ret {A} a.
Arguments Raise {A} e.

Definition M (A : Type) : Type := state -> res A * state.

Definition ret {A} (a : A) : M A := fun s => (Ret a, s).
Definition raise {A} (e : exn) : M A := fun s => (Raise e, s).
Definition bind {A B} (m : M A) (k : A -> M B) : M B :=
  fun s =>
    match m s with
    | (Ret a, s') => k a s'
    | (Raise e, s') => (Raise e, s')
    end.

Global Instance M_ret : MRet M := @ret.
Global Instance M_bind : MBind M := fun A B k m => bind m k.

Definition lift {A} (r : exn + A) : M A :=
  match r with
  | inl e => raise e
  | inr a => ret a
  end.

(** An [except C:] clause and the [try] statement: the first clause whose
    class the exception is an instance of handles it; with none, the
    exception goes on to the caller. *)
Definition handler (A : Type) : Type := exn_class * (exn -> M A).

Fixpoint dispatch {A} (hs : list (handler A)) (e : exn) : M A :=
  match hs with
  | [] => raise e
  | (c, h) :: hs' => if issubclass (exn_cls e) c then h e else dispatch hs' e
  end.

Definition try_except {A} (body : M A) (hs : list (handler A)) : M A :=
  fun s =>
    match body s with
    | (Ret a, s') => (Ret a, s')
    | (Raise e, s') => dispatch hs e s'
    end.

(** [print(l)] on a stdout that accepts every line; [Faulty.print] is the
    [print] that can raise. *)
Definition print (l : line) : M unit :=
  fun s => (Ret tt, mk_state (net_calls s) (clock_reads s) (stdout s ++ [l])).

(** [datetime.datetime.now()] *)
Definition now (w : world) : M datetime :=
  fun s => (Ret (clock w (clock_reads s)),
            mk_state (net_calls s) (S (clock_reads s)) (stdout s)).

(** [requests.get(url, timeout=t)], not interrupted *)
Definition requests_get (w : world) (url : string) (t : Z) : M response :=
  fun s =>
    let s' := mk_state (net_calls s ++ [(url, t)]) (clock_reads s) (stdout s) in
    match http w (length (net_calls s)) url t with
    | Responded r => (Ret r, s')
    | Failed e => (Raise e, s')
    end.

(** [response.json()] by its contract: the value, or JSONDecodeError;
    [Faulty.response_json] adds the other exceptions it can raise. *)
Definition response_json (r : response) : M pyval :=
  match json_body r with
  | JsonValue v => ret v
  | JsonDecodeError msg => raise (mk_exn E_JSONDecodeError msg)
  end.

(** [d[k]] *)
Definition getitem (d : pydict) (k : string) : M pyval :=
  match d !! k with
  | Some v => ret v
  | None => raise (mk_exn E_KeyError ("'" +:+ k +:+ "'"))
  end.

(** [k in d] *)
Definition contains (k : string) (d : pydict) : bool :=
  bool_decide (is_Some (d !! k)).

(** ** The program *)

(** The program in an environment without faults: no interrupt, a stdout
    that accepts every line, [response.json()] keeping to its contract.
    [Faulty] below is the same program with these faults. *)

Section Program.

Variable w : world.

(** The dictionary returned by each of the three outer [except] clauses. *)
Definition failure_info (server_name url error : string) (t : datetime) : pydict :=
  {[ "server" := PStr server_name;
     "url" := PStr url;
     "error" := PStr error;
     "timestamp" := PStr (isoformat "T" t);
     "success" := PBool false ]}.

(** The inner [try]: parse the body as JSON, or keep the raw text. *)
Definition parse_response (response : response) (response_info : pydict)
  : M pydict :=
  try_except
    (response_data ← response_json response;
     ret (<["response_data" := response_data]> response_info))
    [(E_JSONDecodeError,
      fun _ => ret (<["response_data" := PStr (text response)]> response_info))].

(** The block under [# Print results]. *)
Definition print_results (server_name : string) (response : response)
    (response_info : pydict) : M unit :=
  if status_code response =? 200 then
    print (fstr [Text "✅ "; Text server_name; Text " is alive (Status: ";
                 Text (pretty (status_code response)); Text ")"]);;
    rt ← getitem response_info "response_time";
    rt_text ← lift (py_format_f 3 rt);
    print (fstr [Text "   Response time: "; Text rt_text; Text "s"]);;
    (* Print additional info if available *)
    if contains "response_data" response_info then
      rd ← getitem response_info "response_data";
      match rd with
      | PDict data =>
          (if contains "message" data then
             msg ← getitem data "message";
             print (fstr (Text "   Message: " :: py_str msg))
           else ret tt);;
          (if contains "uptime" data then
             up ← getitem data "uptime";
             up_text ← lift (py_format_f 1 up);
             print (fstr [Text "   Uptime: "; Text up_text; Text "s"])
           else ret tt)
      | _ => ret tt
      end
    else ret tt
  else
    print (fstr [Text "⚠️ "; Text server_name;
                 Text " returned unexpected status code: ";
                 Text (pretty (status_code response))]).

(** The body of the outer [try]. *)
Definition ping_server_try (url server_name : string) : M pydict :=
  t0 ← now w;
  print (fstr [Text (isoformat " " t0); Text ": Pinging ";
               Text server_name; Text " at "; Text url]);;
  (* Make the request with timeout *)
  response ← requests_get w url 30;
  (* Get response details *)
  t1 ← now w;
  let response_info : pydict :=
    {[ "server" := PStr server_name;
       "url" := PStr url;
       "status_code" := PInt (status_code response);
       "response_time" := PFloat (elapsed_seconds response);
       "timestamp" := PStr (isoformat "T" t1);
       "success" := PBool (status_code response =? 200) ]} in
  (* Try to parse JSON response *)
  response_info ← parse_response response response_info;
  (* Print results *)
  print_results server_name response response_info;;
  ret response_info.

(** The three [except] clauses of the outer [try], in order. *)
Definition ping_server_except (url server_name : string)
  : list (handler pydict) :=
  [ (E_Timeout,
     fun _ =>
       let error_msg :=
         fstr [Text "❌ "; Text server_name;
               Text " request timed out after 30 seconds"] in
       print error_msg;;
       t ← now w;
       ret (failure_info server_name url "timeout" t));
    (E_ConnectionError,
     fun _ =>
       let error_msg :=
         fstr [Text "❌ "; Text server_name;
               Text " connection failed - server may be down"] in
       print error_msg;;
       t ← now w;
       ret (failure_info server_name url "connection_error" t));
    (E_Exception,
     fun e =>
       let error_msg :=
         fstr [Text "❌ "; Text server_name; Text " error: ";
               Text (exn_str e)] in
       print error_msg;;
       t ← now w;
       ret (failure_info server_name url (exn_str e) t)) ].

Definition ping_server (url server_name : string) : M pydict :=
  try_except (ping_server_try url server_name)
             (ping_server_except url server_name).

(** A server configuration: the dict literal with keys "name" and "url". *)
Record server := mk_server {
  name : string;
  url_of : string
}.

(** The [for server in servers] loop, appending to [results]. *)
Fixpoint ping_each (servers : list server) (results : list pydict)
  : M (list pydict) :=
  match servers with
  | [] => ret results
  | srv :: rest =>
      result ← ping_server (url_of srv) (name srv);
      let results := (results ++ [result])%list in
      print [] ;;   (* Add spacing between servers *)
      ping_each rest results
  end.

(** [sum(1 for r in results if r["success"])] *)
Fixpoint count_success (results : list pydict) : M Z :=
  match results with
  | [] => ret 0
  | r :: rest =>
      ok ← getitem r "success";
      n ← count_success rest;
      ret (if truthy ok then 1 + n else n)
  end.

Definition banner : line := [Text (str_mul "=" 60)].

(** The body of [ping_all_servers] for the list bound to [servers]. *)
Definition ping_servers (servers : list server) : M Z :=
  print banner ;;
  print [Text "SERVER PING MONITORING"] ;;
  print banner ;;
  results ← ping_each servers [];
  (* Summary *)
  print banner ;;
  print [Text "SUMMARY"] ;;
  print banner ;;
  successful_pings ← count_success results;
  let total_servers := Z.of_nat (length results) in
  print (fstr [Text "Servers responding: "; Text (pretty successful_pings);
               Text "/"; Text (pretty total_servers)]) ;;
  if successful_pings =? total_servers then
    print [Text "🎉 All servers are healthy!"] ;;
    ret 0
  else
    print [Text "⚠️ Some servers are not responding"] ;;
    ret 1.

(** Server configurations *)
Definition servers : list server :=
  [ mk_server "Node.js API Server" "https://make-it-rag.onrender.com/ping";
    mk_server "Python AI Server" "https://make-it-rag-1.onrender.com/ping" ].

Definition ping_all_servers : M Z := ping_servers servers.

End Program.


(** ** Vocabulary of the statements *)

(** The answer of the world to the request a probe makes from state [s]. *)
Definition request_outcome (w : world) (s : state) (url : string) : get_outcome :=
  http w (length (net_calls s)) url 30.

(** The value stored under "response_data" for a response. *)
Definition response_data_of (r : response) : pyval :=
  match json_body r with
  | JsonValue v => v
  | JsonDecodeError _ => PStr (text r)
  end.

(** The dictionary built for a response received at clock reading [t]. *)
Definition response_info_of (server_name url : string) (r : response)
    (t : datetime) : pydict :=
  <["response_data" := response_data_of r]>
    {[ "server" := PStr server_name;
       "url" := PStr url;
       "status_code" := PInt (status_code r);
       "response_time" := PFloat (elapsed_seconds r);
       "timestamp" := PStr (isoformat "T" t);
       "success" := PBool (status_code r =? 200) ]}.

(** The first line of every probe. *)
Definition start_line (t : datetime) (server_name url : string) : line :=
  [Text (isoformat " " t +:+ ": Pinging " +:+ server_name +:+ " at " +:+ url)].

(** The "error" entry chosen by the [except] clauses for an exception. *)
Definition error_kind (e : exn) : string :=
  if issubclass (exn_cls e) E_Timeout then "timeout"
  else if issubclass (exn_cls e) E_ConnectionError then "connection_error"
  else exn_str e.

(** The line printed by the [except] clause that handles an exception. *)
Definition error_line (server_name : string) (e : exn) : line :=
  if issubclass (exn_cls e) E_Timeout then
    [Text ("❌ " +:+ server_name +:+ " request timed out after 30 seconds")]
  else if issubclass (exn_cls e) E_ConnectionError then
    [Text ("❌ " +:+ server_name +:+ " connection failed - server may be down")]
  else
    [Text ("❌ " +:+ server_name +:+ " error: " +:+ exn_str e)].

(** The state after printing the lines [ls]. *)
Definition printed (ls : list line) (s : state) : state :=
  mk_state (net_calls s) (clock_reads s) (stdout s ++ ls).

(** Whether a result counts in the summary: the truth of [r["success"]]. *)
Definition success_of (r : pydict) : bool :=
  match r !! "success" with
  | Some v => truthy v
  | None => false
  end.

(** The number of results that count as successful. *)
Definition successes (results : list pydict) : nat :=
  length (List.filter success_of results).

(** [results] are the results of probing [srvs] one after the other from
    state [s], each probe followed by the blank line, ending in [s_end]. *)
Fixpoint probes_chain (w : world) (s : state) (srvs : list server)
    (results : list pydict) (s_end : state) : Prop :=
  match srvs, results with
  | [], [] => s_end = s
  | srv :: srvs', r :: results' =>
      exists s1,
        ping_server w (url_of srv) (name srv) s = (Ret r, s1) /\
        probes_chain w (printed [[]] s1) srvs' results' s_end
  | _, _ => False
  end.

(** The lines of the summary block. *)
Definition summary_line (k n : nat) : line :=
  [Text ("Servers responding: " +:+ pretty (Z.of_nat k) +:+ "/" +:+
         pretty (Z.of_nat n))].
Definition healthy_line : line := [Text "🎉 All servers are healthy!"].
Definition unhealthy_line : line := [Text "⚠️ Some servers are not responding"].

Definition header : list line :=
  [banner; [Text "SERVER PING MONITORING"]; banner].

(** The two lines printed for a 200 response before the additional info. *)
Definition alive_line (server_name : string) (r : response) : line :=
  [Text ("✅ " +:+ server_name +:+ " is alive (Status: " +:+
         pretty (status_code r) +:+ ")")].
Definition response_time_line (r : response) : line :=
  [Text ("   Response time: " +:+ Fmt.format_float 3 (elapsed_seconds r) +:+ "s")].
Definition warning_line (server_name : string) (r : response) : line :=
  [Text ("⚠️ " +:+ server_name +:+ " returned unexpected status code: " +:+
         pretty (status_code r))].

(** ** Concrete worlds *)

(** A world that answers the n-th request with the n-th outcome of a list
    (and with [dflt] afterwards) and whose clock always shows [t]. *)
Definition scripted (outs : list get_outcome) (dflt : get_outcome)
    (t : datetime) : world :=
  mk_world (fun n _ _ => nth n outs dflt) (fun _ => t).

Definition noon : datetime := mk_datetime 2024 3 5 12 0 0 0.

(** 0.25 and the binary64 number nearest to 12.34. *)
Definition quarter : spec_float := S754_finite false 1 (-2).
Definition uptime_12_34 : spec_float :=
  S754_finite false 6946802425218990 (-49).

(** The mapping [{"message": "ok", "uptime": 12.34}]. *)
Definition body_ok : pydict :=
  {[ "message" := PStr "ok"; "uptime" := PFloat uptime_12_34 ]}.

Definition resp_ok : response :=
  mk_response 200 quarter "{..}" (JsonValue (PDict body_ok)).

(** A 200 response whose JSON body is [{"uptime": "5 minutes"}]. *)
Definition resp_text_uptime : response :=
  mk_response 200 quarter "{..}"
    (JsonValue (PDict {[ "uptime" := PStr "5 minutes" ]})).

Definition resp_404 : response :=
  mk_response 404 quarter "Not Found" (JsonDecodeError "Expecting value").

Definition resp_pong : response :=
  mk_response 200 quarter "pong" (JsonDecodeError "Expecting value").

Definition connect_timeout : exn := mk_exn E_ConnectTimeout "connect timed out".
Definition refused : exn := mk_exn E_ConnectionError "connection refused".

(** One target answering 200 with [{"uptime": "5 minutes"}]. *)
Definition world_text_uptime : world :=
  scripted [Responded resp_text_uptime] (Failed refused) noon.

(** The first target answers 200 with the ok body, the second times out. *)
Definition world_one_of_two : world :=
  scripted [Responded resp_ok; Failed connect_timeout] (Failed refused) noon.

(** Both targets answer 200 with the ok body. *)
Definition world_two_of_two : world :=
  scripted [Responded resp_ok; Responded resp_ok] (Failed refused) noon.

Definition world_404 : world :=
  scripted [Responded resp_404] (Failed refused) noon.

Definition world_pong : world :=
  scripted [Responded resp_pong] (Failed refused) noon.

Definition world_refused : world := scripted [] (Failed refused) noon.

(** ** The additional lines of a 200 response *)

(** Whether the "uptime" entry of a mapping body, if there is one, can be
    formatted with [.1f]. *)
Definition uptime_formattable (resp : response) : bool :=
  match response_data_of resp with
  | PDict data =>
      match data !! "uptime" with
      | Some up =>
          match py_format_f 1 up with
          | inr _ => true
          | inl _ => false
          end
      | None => true
      end
  | _ => true
  end.

(** The line printed for the "message" entry of a mapping, if any. *)
Definition message_lines (data : pydict) : list line :=
  match data !! "message" with
  | Some msg => [fstr (Text "   Message: " :: py_str msg)]
  | None => []
  end.

(** The line printed for a formattable "uptime" entry, if any. *)
Definition uptime_lines (data : pydict) : list line :=
  match data !! "uptime" with
  | Some up =>
      match py_format_f 1 up with
      | inr up_text => [[Text ("   Uptime: " +:+ up_text +:+ "s")]]
      | inl _ => []
      end
  | None => []
  end.

Definition additional_lines (v : pyval) : list line :=
  match v with
  | PDict data => message_lines data ++ uptime_lines data
  | _ => []
  end.

(** ** The [__main__] block *)

(** The newline character. *)
Definition nl : string := String "010"%char "".

(** What the top level sees raised: an exception derived from [Exception],
    the [SystemExit] of [sys.exit(code)], or [KeyboardInterrupt]. *)
Inductive raised :=
| R_Exception (e : exn)
| R_SystemExit (code : Z)
| R_KeyboardInterrupt.

(** ** The program with the faults of its environment *)

(** What the definitions above take for granted, and an environment can
    break: [response.json()] can raise an exception other than the one of
    its contract (RecursionError on deep nesting, ValueError on an integer of
    more than 4300 digits), [print] can raise (UnicodeEncodeError when
    stdout cannot encode the line, an OSError when stdout is closed), and an
    interrupt from the keyboard can arrive while a request is pending,
    while the body is parsed or while a line is printed.  The faults are
    indexed by the number of requests issued, respectively of lines
    printed, so far. *)
Inductive fault :=
| Fault_exn (e : exn)
| Fault_interrupt.

Definition raise_of (x : fault) : raised :=
  match x with
  | Fault_exn e => R_Exception e
  | Fault_interrupt => R_KeyboardInterrupt
  end.

Record faults := mk_faults {
  get_interrupted : nat -> bool;
  json_raises : nat -> option fault;
  print_raises : nat -> line -> option fault
}.

Definition no_faults : faults :=
  mk_faults (fun _ => false) (fun _ => None) (fun _ _ => None).

(** A computation returns a value or raises an exception, [SystemExit] or
    [KeyboardInterrupt], and leaves a state. *)
Inductive gres (A : Type) :=
| GRet (a : A)
| GRaise (r : raised).
Arguments GRet {A} a.
Arguments GRaise {A} r.

Definition G (A : Type) : Type := state -> gres A * state.

Definition gret {A} (a : A) : G A := fun s => (GRet a, s).
Definition graise {A} (r : raised) : G A := fun s => (GRaise r, s).
Definition gbind {A B} (m : G A) (k : A -> G B) : G B :=
  fun s =>
    match m s with
    | (GRet a, s') => k a s'
    | (GRaise r, s') => (GRaise r, s')
    end.

Global Instance G_ret : MRet G := @gret.
Global Instance G_bind : MBind G := fun A B k m => gbind m k.

(** A computation of the fault-free program, run as it is. *)
Definition embed {A} (m : M A) : G A :=
  fun s =>
    match m s with
    | (Ret a, s') => (GRet a, s')
    | (Raise e, s') => (GRaise (R_Exception e), s')
    end.

(** The [except] clauses: [except C:] for a class of exceptions, and
    [except KeyboardInterrupt:].  [SystemExit] matches neither. *)
Inductive gclause (A : Type) :=
| OnException (c : exn_class) (h : exn -> G A)
| OnKeyboardInterrupt (h : G A).
Arguments OnException {A} c h.
Arguments OnKeyboardInterrupt {A} h.

Fixpoint gdispatch {A} (hs : list (gclause A)) (r : raised) : G A :=
  match hs with
  | [] => graise r
  | OnException c h :: hs' =>
      match r with
      | R_Exception e => if issubclass (exn_cls e) c then h e else gdispatch hs' r
      | _ => gdispatch hs' r
      end
  | OnKeyboardInterrupt h :: hs' =>
      match r with
      | R_KeyboardInterrupt => h
      | _ => gdispatch hs' r
      end
  end.

Definition gtry_except {A} (body : G A) (hs : list (gclause A)) : G A :=
  fun s =>
    match body s with
    | (GRet a, s') => (GRet a, s')
    | (GRaise r, s') => gdispatch hs r s'
    end.

(** [sys.exit(code)] *)
Definition sys_exit {A} (code : Z) : G A := graise (R_SystemExit code).

Module Faulty.

Section Program.

Variable w : world.
Variable f : faults.

(** [print(l)]: raises what the environment says for this line, or appends
    the line. *)
Definition print (l : line) : G unit :=
  fun s =>
    match print_raises f (length (stdout s)) l with
    | Some x => (GRaise (raise_of x), s)
    | None => embed (print l) s
    end.

(** [requests.get(url, timeout=t)]: the request is issued; an interrupt
    while it is pending raises [KeyboardInterrupt]. *)
Definition requests_get (url : string) (t : Z) : G response :=
  fun s =>
    if get_interrupted f (length (net_calls s)) then
      (GRaise R_KeyboardInterrupt,
       mk_state (net_calls s ++ [(url, t)]) (clock_reads s) (stdout s))
    else embed (requests_get w url t) s.

(** [response.json()] *)
Definition response_json (r : response) : G pyval :=
  fun s =>
    match json_raises f (length (net_calls s)) with
    | Some x => (GRaise (raise_of x), s)
    | None => embed (response_json r) s
    end.

Definition parse_response (response : response) (response_info : pydict)
  : G pydict :=
  gtry_except
    (response_data ← response_json response;
     mret (<["response_data" := response_data]> response_info))
    [OnException E_JSONDecodeError
       (fun _ => mret (<["response_data" := PStr (text response)]> response_info))].

Definition print_results (server_name : string) (response : response)
    (response_info : pydict) : G unit :=
  if status_code response =? 200 then
    print (fstr [Text "✅ "; Text server_name; Text " is alive (Status: ";
                 Text (pretty (status_code response)); Text ")"]);;
    rt ← embed (getitem response_info "response_time");
    rt_text ← embed (lift (py_format_f 3 rt));
    print (fstr [Text "   Response time: "; Text rt_text; Text "s"]);;
    (* Print additional info if available *)
    if contains "response_data" response_info then
      rd ← embed (getitem response_info "response_data");
      match rd with
      | PDict data =>
          (if contains "message" data then
             msg ← embed (getitem data "message");
             print (fstr (Text "   Message: " :: py_str msg))
           else mret tt);;
          (if contains "uptime" data then
             up ← embed (getitem data "uptime");
             up_text ← embed (lift (py_format_f 1 up));
             print (fstr [Text "   Uptime: "; Text up_text; Text "s"])
           else mret tt)
      | _ => mret tt
      end
    else mret tt
  else
    print (fstr [Text "⚠️ "; Text server_name;
                 Text " returned unexpected status code: ";
                 Text (pretty (status_code response))]).

Definition ping_server_try (url server_name : string) : G pydict :=
  t0 ← embed (now w);
  print (fstr [Text (isoformat " " t0); Text ": Pinging ";
               Text server_name; Text " at "; Text url]);;
  (* Make the request with timeout *)
  response ← requests_get url 30;
  (* Get response details *)
  t1 ← embed (now w);
  let response_info : pydict :=
    {[ "server" := PStr server_name;
       "url" := PStr url;
       "status_code" := PInt (status_code response);
       "response_time" := PFloat (elapsed_seconds response);
       "timestamp" := PStr (isoformat "T" t1);
       "success" := PBool (status_code response =? 200) ]} in
  (* Try to parse JSON response *)
  response_info ← parse_response response response_info;
  (* Print results *)
  print_results server_name response response_info;;
  mret response_info.

Definition ping_server_except (url server_name : string)
  : list (gclause pydict) :=
  [ OnException E_Timeout
      (fun _ =>
         let error_msg :=
           fstr [Text "❌ "; Text server_name;
                 Text " request timed out after 30 seconds"] in
         print error_msg;;
         t ← embed (now w);
         mret (failure_info server_name url "timeout" t));
    OnException E_ConnectionError
      (fun _ =>
         let error_msg :=
           fstr [Text "❌ "; Text server_name;
                 Text " connection failed - server may be down"] in
         print error_msg;;
         t ← embed (now w);
         mret (failure_info server_name url "connection_error" t));
    OnException E_Exception
      (fun e =>
         let error_msg :=
           fstr [Text "❌ "; Text server_name; Text " error: ";
                 Text (exn_str e)] in
         print error_msg;;
         t ← embed (now w);
         mret (failure_info server_name url (exn_str e) t)) ].

Definition ping_server (url server_name : string) : G pydict :=
  gtry_except (ping_server_try url server_name)
              (ping_server_except url server_name).

Fixpoint ping_each (servers : list server) (results : list pydict)
  : G (list pydict) :=
  match servers with
  | [] => mret results
  | srv :: rest =>
      result ← ping_server (url_of srv) (name srv);
      let results := (results ++ [result])%list in
      print [];;   (* Add spacing between servers *)
      ping_each rest results
  end.

Definition ping_servers (servers : list server) : G Z :=
  print banner;;
  print [Text "SERVER PING MONITORING"];;
  print banner;;
  results ← ping_each servers [];
  (* Summary *)
  print banner;;
  print [Text "SUMMARY"];;
  print banner;;
  successful_pings ← embed (count_success results);
  let total_servers := Z.of_nat (length results) in
  print (fstr [Text "Servers responding: "; Text (pretty successful_pings);
               Text "/"; Text (pretty total_servers)]);;
  if successful_pings =? total_servers then
    print [Text "🎉 All servers are healthy!"];;
    mret 0
  else
    print [Text "⚠️ Some servers are not responding"];;
    mret 1.

Definition ping_all_servers : G Z := ping_servers servers.

(** The [__main__] block. *)
Definition main : G unit :=
  gtry_except
    (exit_code ← ping_all_servers;
     sys_exit exit_code)
    [ OnKeyboardInterrupt
        (print [Text (nl +:+ nl +:+ "Ping interrupted by user")];;
         sys_exit 1);
      OnException E_Exception
        (fun e =>
           print (fstr [Text (nl +:+ "Unexpected error: "); Text (exn_str e)]);;
           sys_exit 1) ].

End Program.

End Faulty.

(** A stdout with an ASCII encoding: [print] raises UnicodeEncodeError (a
    ValueError) on a line that holds a character outside ASCII.  The
    message is the one for the cross mark at the head of a failure line. *)
Fixpoint ascii_text (s : string) : bool :=
  match s with
  | EmptyString => true
  | String c s' => (nat_of_ascii c <? 128)%nat && ascii_text s'
  end.

Definition ascii_line (l : line) : bool :=
  forallb (fun x => match x with Text s => ascii_text s | StrOf _ => true end) l.

Definition unicode_encode_error : exn :=
  mk_exn E_ValueError
    "'ascii' codec can't encode character '\u274c' in position 0: ordinal not in range(128)".

Definition ascii_stdout : faults :=
  mk_faults (fun _ => false) (fun _ => None)
    (fun _ l =>
       if ascii_line l then None else Some (Fault_exn unicode_encode_error)).

(** The first request is interrupted from the keyboard. *)
Definition interrupted_first : faults :=
  mk_faults (fun n => Nat.eqb n 0) (fun _ => None) (fun _ _ => None).

(** A body that is an array nested 5000 deep: the text, the value it
    denotes, and what [response.json()] does with it, which is to raise
    RecursionError. *)
Fixpoint nested_list (n : nat) : pyval :=
  match n with
  | O => PList []
  | S n' => PList [nested_list n']
  end.

Definition deep_text : string := str_mul "[" 5000 +:+ str_mul "]" 5000.

Definition resp_deep (status : Z) : response :=
  mk_response status quarter deep_text (JsonValue (nested_list 4999)).

Definition world_deep_404 : world :=
  scripted [Responded (resp_deep 404)] (Failed refused) noon.

Definition world_deep_200 : world :=
  scripted [Responded (resp_deep 200)] (Failed refused) noon.

Definition recursion_error : exn :=
  mk_exn E_Exception "maximum recursion depth exceeded while decoding a JSON array from a unicode string".

Definition deep_json : faults :=
  mk_faults (fun _ => false) (fun _ => Some (Fault_exn recursion_error))
    (fun _ _ => None).

(** The state a probe leaves: one more request, [reads] more clock
    readings, the start line and then [ls]. *)
Definition probed (w : world) (url name : string) (reads : nat)
    (ls : list line) (s : state) : state :=
  mk_state (net_calls s ++ [(url, 30)]) (reads + clock_reads s)
           (stdout s ++ start_line (clock w (clock_reads s)) name url :: ls).

(** Every request is answered 200 with the ok body. *)
Definition world_all_ok : world := scripted [] (Responded resp_ok) noon.

(** An environment without faults: no interrupt, [response.json()] keeps
    to its contract, stdout accepts every line. *)
Definition quiet (f : faults) : Prop :=
  (forall n, get_interrupted f n = false) /\
  (forall n, json_raises f n = None) /\
  (forall k l, print_raises f k l = None).

(** [g] does what the fault-free computation [m] does. *)
Definition refines {A} (g : G A) (m : M A) : Prop :=
  forall s, g s = embed m s.

(** No interrupt arrives from the keyboard. *)
Definition no_interrupt (f : faults) : Prop :=
  (forall n, get_interrupted f n = false) /\
  (forall n, json_raises f n <> Some Fault_interrupt) /\
  (forall k l, print_raises f k l <> Some Fault_interrupt).

(** [E] holds of everything the environment [f] can make an operation
    raise: of every exception, and of [KeyboardInterrupt] if [f] has an
    interrupt. *)
Definition covers (f : faults) (E : raised -> Prop) : Prop :=
  (forall e, E (R_Exception e)) /\
  (forall n, get_interrupted f n = true -> E R_KeyboardInterrupt) /\
  (forall n, json_raises f n = Some Fault_interrupt -> E R_KeyboardInterrupt) /\
  (forall k l, print_raises f k l = Some Fault_interrupt ->
               E R_KeyboardInterrupt).

Definition is_exception (x : raised) : Prop := exists e, x = R_Exception e.

Definition not_exit (x : raised) : Prop :=
  match x with
  | R_SystemExit _ => False
  | _ => True
  end.

(** What a computation may return and may raise. *)
Definition gpost {A} (m : G A) (Q : A -> Prop) (E : raised -> Prop) : Prop :=
  forall s res s',
    m s = (res, s') ->
    match res with
    | GRet a => Q a
    | GRaise x => E x
    end.

(** Raised by the environment: the interrupt of a request, or the exception
    of a [print]. *)
Definition from_env (f : faults) (x : raised) : Prop :=
  x = R_KeyboardInterrupt \/
  exists e k l, x = R_Exception e /\ print_raises f k l = Some (Fault_exn e).

(** A result with a boolean under "success". *)
Definition has_success (r : pydict) : Prop :=
  exists b, r !! "success" = Some (PBool b).

(** The lines of the two [except] clauses of the [__main__] block. *)
Definition interrupted_line : line :=
  [Text (nl +:+ nl +:+ "Ping interrupted by user")].
Definition unexpected_line (e : exn) : line :=
  [Text (nl +:+ "Unexpected error: " +:+ exn_str e)].

(** A computation that neither calls the network nor reads the clock. *)
Definition only_prints {A} (m : M A) : Prop :=
  forall s, net_calls (snd (m s)) = net_calls s /\
            clock_reads (snd (m s)) = clock_reads s.

Section Lemmas.

Variable w : world.

Lemma run_bind {A B} (m : M A) (k : A -> M B) (s : state) :
  (m ≫= k) s =
  match m s with
  | (Ret a, s') => k a s'
  | (Raise e, s') => (Raise e, s')
  end.
Proof. reflexivity. Qed.

Lemma issubclass_Exception (c : exn_class) : issubclass c E_Exception = true.
Proof. destruct c; reflexivity. Qed.

Lemma parse_response_run (r : response) (info : pydict) (s : state) :
  parse_response r info s = (Ret (<["response_data" := response_data_of r]> info), s).
Proof.
  unfold parse_response, try_except, response_data_of, response_json.
  rewrite run_bind.
  destruct (json_body r) as [v | msg]; reflexivity.
Qed.

Lemma ping_server_try_failed url name s e :
  request_outcome w s url = Failed e ->
  ping_server_try w url name s =
  (Raise e,
   mk_state (net_calls s ++ [(url, 30)]) (S (clock_reads s))
            (stdout s ++ [start_line (clock w (clock_reads s)) name url])).
Proof.
  unfold request_outcome. intros H.
  unfold ping_server_try, mbind, M_bind, bind, now, print, requests_get.
  simpl. rewrite H. reflexivity.
Qed.

Lemma ping_server_try_responded url name s r :
  request_outcome w s url = Responded r ->
  let info := response_info_of name url r (clock w (S (clock_reads s))) in
  ping_server_try w url name s =
  match print_results name r info
          (mk_state (net_calls s ++ [(url, 30)]) (S (S (clock_reads s)))
             (stdout s ++ [start_line (clock w (clock_reads s)) name url])) with
  | (Ret _, s') => (Ret info, s')
  | (Raise e, s') => (Raise e, s')
  end.
Proof.
  intros H info. unfold request_outcome in H. subst info.
  unfold ping_server_try, mbind, M_bind, bind, now, print, requests_get.
  simpl. rewrite H. rewrite parse_response_run. reflexivity.
Qed.

Lemma handlers_run url name e s :
  dispatch (ping_server_except w url name) e s =
  (Ret (failure_info name url (error_kind e) (clock w (clock_reads s))),
   mk_state (net_calls s) (S (clock_reads s)) (stdout s ++ [error_line name e])).
Proof.
  unfold ping_server_except, dispatch, error_kind, error_line.
  destruct (issubclass (exn_cls e) E_Timeout); [reflexivity |].
  destruct (issubclass (exn_cls e) E_ConnectionError); [reflexivity |].
  rewrite issubclass_Exception. reflexivity.
Qed.

Lemma ping_server_run url name s :
  ping_server w url name s =
  match ping_server_try w url name s with
  | (Ret r, s') => (Ret r, s')
  | (Raise e, s') =>
      (Ret (failure_info name url (error_kind e) (clock w (clock_reads s'))),
       mk_state (net_calls s') (S (clock_reads s'))
                (stdout s' ++ [error_line name e]))
  end.
Proof.
  unfold ping_server, try_except.
  destruct (ping_server_try w url name s) as [[r | e] s']; [reflexivity |].
  apply handlers_run.
Qed.

Lemma only_prints_ret {A} (a : A) : only_prints (mret a).
Proof. intros s. split; reflexivity. Qed.

Lemma only_prints_raise {A} (e : exn) : only_prints (@raise A e).
Proof. intros s. split; reflexivity. Qed.

Lemma only_prints_print (l : line) : only_prints (print l).
Proof. intros s. split; reflexivity. Qed.

Lemma only_prints_lift {A} (r : exn + A) : only_prints (lift r).
Proof. destruct r; intros s; split; reflexivity. Qed.

Lemma only_prints_getitem (d : pydict) (k : string) : only_prints (getitem d k).
Proof. unfold getitem. destruct (d !! k); intros s; split; reflexivity. Qed.

Lemma only_prints_bind {A B} (m : M A) (k : A -> M B) :
  only_prints m -> (forall a, only_prints (k a)) -> only_prints (m ≫= k).
Proof.
  intros Hm Hk s. rewrite run_bind.
  specialize (Hm s). destruct (m s) as [[a | e] s1]; simpl in *.
  - destruct (Hk a s1) as [H1 H2]. destruct Hm as [H3 H4]. split; congruence.
  - exact Hm.
Qed.

Lemma print_results_only_prints name r info :
  only_prints (print_results name r info).
Proof.
  unfold print_results.
  destruct (status_code r =? 200); [| apply only_prints_print].
  apply only_prints_bind; [apply only_prints_print | intros _].
  apply only_prints_bind; [apply only_prints_getitem | intros rt].
  apply only_prints_bind; [apply only_prints_lift | intros rt_text].
  apply only_prints_bind; [apply only_prints_print | intros _].
  destruct (contains "response_data" info); [| apply only_prints_ret].
  apply only_prints_bind; [apply only_prints_getitem | intros rd].
  destruct rd; try apply only_prints_ret.
  apply only_prints_bind.
  - destruct (contains "message" d); [| apply only_prints_ret].
    apply only_prints_bind; [apply only_prints_getitem | intros msg].
    apply only_prints_print.
  - intros _. destruct (contains "uptime" d); [| apply only_prints_ret].
    apply only_prints_bind; [apply only_prints_getitem | intros up].
    apply only_prints_bind; [apply only_prints_lift | intros up_text].
    apply only_prints_print.
Qed.

(** Every probe returns; it has issued exactly one request; the result is
    either the dictionary of the response received or a failure one. *)
Lemma ping_server_cases url name s :
  exists r s',
    ping_server w url name s = (Ret r, s') /\
    net_calls s' = net_calls s ++ [(url, 30)] /\
    ((exists resp t,
        request_outcome w s url = Responded resp /\
        r = response_info_of name url resp t) \/
     (exists error t, r = failure_info name url error t)).
Proof.
  rewrite ping_server_run.
  destruct (request_outcome w s url) as [resp | e] eqn:Hout.
  - rewrite (ping_server_try_responded _ _ _ _ Hout).
    match goal with |- context [print_results ?n ?r ?i ?s0] =>
      destruct (print_results_only_prints n r i s0) as [Hn _];
      destruct (print_results n r i s0) as [[[] | e] s1]
    end; simpl in Hn.
    + eexists _, _. split; [reflexivity |]. split; [exact Hn |].
      left. eauto.
    + eexists _, _. split; [reflexivity |]. split; [exact Hn |].
      right. eauto.
  - rewrite (ping_server_try_failed _ _ _ _ Hout).
    eexists _, _. split; [reflexivity |]. split; [reflexivity |].
    right. eauto.
Qed.

Lemma print_run (l : line) (s : state) : print l s = (Ret tt, printed [l] s).
Proof. reflexivity. Qed.

Lemma printed_printed (l1 l2 : list line) (s : state) :
  printed l2 (printed l1 s) = printed (l1 ++ l2) s.
Proof. unfold printed. simpl. by rewrite <- app_assoc. Qed.

Lemma failure_info_success name url error t :
  failure_info name url error t !! "success" = Some (PBool false).
Proof. reflexivity. Qed.

Lemma response_info_success name url resp t :
  response_info_of name url resp t !! "success" =
  Some (PBool (status_code resp =? 200)).
Proof. reflexivity. Qed.

Lemma ping_server_success url name s r s' :
  ping_server w url name s = (Ret r, s') ->
  exists b, r !! "success" = Some (PBool b).
Proof.
  intros H. destruct (ping_server_cases url name s) as (r0 & s0 & H0 & _ & Hr).
  rewrite H in H0. injection H0 as <- <-.
  destruct Hr as [(resp & t & _ & ->) | (error & t & ->)]; eauto.
Qed.

Lemma getitem_lookup (d : pydict) (k : string) (v : pyval) (s : state) :
  d !! k = Some v -> getitem d k s = (Ret v, s).
Proof. intros H. unfold getitem. by rewrite H. Qed.

Lemma ping_each_cons srv rest acc :
  ping_each w (srv :: rest) acc =
  (ping_server w (url_of srv) (name srv) ≫= fun result =>
   print [] ≫= fun _ => ping_each w rest (acc ++ [result])).
Proof. reflexivity. Qed.

Lemma count_success_cons r rest :
  count_success (r :: rest) =
  (getitem r "success" ≫= fun ok =>
   count_success rest ≫= fun n => mret (if truthy ok then 1 + n else n)).
Proof. reflexivity. Qed.

Lemma ping_each_run srvs :
  forall acc s, exists rs s',
    ping_each w srvs acc s = (Ret (acc ++ rs), s') /\
    probes_chain w s srvs rs s' /\
    net_calls s' = net_calls s ++ map (fun srv => (url_of srv, 30)) srvs.
Proof.
  induction srvs as [| srv rest IH]; intros acc s.
  - exists [], s. simpl. rewrite !app_nil_r. auto.
  - destruct (ping_server_cases (url_of srv) (name srv) s)
      as (r & s1 & Hr & Hn & _).
    destruct (IH (acc ++ [r]) (printed [[]] s1)) as (rs & s' & Hrun & Hch & Hn').
    exists (r :: rs), s'. split; [| split].
    + rewrite ping_each_cons, run_bind, Hr. cbv beta iota.
      rewrite run_bind, print_run. cbv beta iota.
      rewrite <- app_assoc in Hrun. exact Hrun.
    + simpl. eauto.
    + rewrite Hn'. simpl. rewrite Hn. by rewrite <- app_assoc.
Qed.

Lemma probes_chain_length srvs :
  forall s rs s', probes_chain w s srvs rs s' -> length rs = length srvs.
Proof.
  induction srvs as [| srv rest IH]; intros s [| r rs] s' H; simpl in *;
    try done.
  destruct H as (s1 & _ & H). f_equal. eauto.
Qed.

Lemma probes_chain_success srvs :
  forall s rs s', probes_chain w s srvs rs s' ->
    Forall (fun r => exists b, r !! "success" = Some (PBool b)) rs.
Proof.
  induction srvs as [| srv rest IH]; intros s [| r rs] s' H; simpl in *;
    try done.
  destruct H as (s1 & Hr & H). constructor; [| eauto].
  eapply ping_server_success; eauto.
Qed.

Lemma count_success_run rs :
  Forall (fun r => exists b, r !! "success" = Some (PBool b)) rs ->
  forall s, count_success rs s = (Ret (Z.of_nat (successes rs)), s).
Proof.
  induction 1 as [| r rs [b Hb] _ IH]; intros s; [reflexivity |].
  rewrite count_success_cons, run_bind, (getitem_lookup _ _ _ _ Hb).
  cbv beta iota. rewrite run_bind, IH.
  assert (Hs : success_of r = b) by (unfold success_of; by rewrite Hb).
  unfold successes. simpl List.filter. rewrite Hs. simpl truthy.
  destruct b; [| reflexivity].
  unfold mret, M_ret, ret. simpl length. do 2 f_equal. lia.
Qed.

Lemma successes_all rs :
  (Z.of_nat (successes rs) =? Z.of_nat (length rs)) = forallb success_of rs.
Proof.
  unfold successes.
  assert (Hle : forall l : list pydict,
             (length (List.filter success_of l) <= length l)%nat).
  { induction l as [| r l IH]; simpl; [lia |].
    destruct (success_of r); simpl; lia. }
  induction rs as [| r rs IH]; [reflexivity |].
  cbn [List.filter forallb]. destruct (success_of r); cbn [length andb].
  - rewrite <- IH, !Nat2Z.inj_succ.
    destruct (Z.eqb_spec (Z.of_nat (length (List.filter success_of rs)))
                (Z.of_nat (length rs)));
      [apply Z.eqb_eq | apply Z.eqb_neq]; lia.
  - apply Z.eqb_neq. specialize (Hle rs). lia.
Qed.

(** The whole run: header, probes in order, summary block, exit code. *)
Lemma ping_servers_run srvs s :
  exists rs s1,
    probes_chain w (printed header s) srvs rs s1 /\
    net_calls s1 = net_calls s ++ map (fun srv => (url_of srv, 30)) srvs /\
    ping_servers w srvs s =
    (Ret (if forallb success_of rs then 0 else 1),
     printed [banner; [Text "SUMMARY"]; banner;
              summary_line (successes rs) (length srvs);
              if forallb success_of rs then healthy_line else unhealthy_line]
             s1).
Proof.
  unfold ping_servers.
  do 3 (rewrite run_bind, print_run; cbv beta iota).
  rewrite !printed_printed. simpl app. rewrite run_bind.
  match goal with |- context [ping_each w srvs [] ?s0] =>
    destruct (ping_each_run srvs [] s0) as (rs & s1 & Hrun & Hch & Hnet)
  end.
  exists rs, s1. split; [exact Hch |]. split; [exact Hnet |].
  pose proof (probes_chain_length _ _ _ _ Hch) as Hlen.
  pose proof (probes_chain_success _ _ _ _ Hch) as Hok.
  rewrite Hrun. simpl app. cbv beta iota.
  do 3 (rewrite run_bind, print_run; cbv beta iota).
  rewrite run_bind, (count_success_run rs Hok). cbv beta iota.
  rewrite run_bind, print_run. cbv beta iota.
  rewrite successes_all, Hlen, !printed_printed. simpl app.
  destruct (forallb success_of rs);
    rewrite run_bind, print_run, printed_printed; reflexivity.
Qed.

Lemma print_results_other name resp info s :
  status_code resp <> 200 ->
  print_results name resp info s = (Ret tt, printed [warning_line name resp] s).
Proof.
  intros H. unfold print_results.
  destruct (Z.eqb_spec (status_code resp) 200) as [E | _]; [done |].
  reflexivity.
Qed.

(** On a 200 response: the two fixed lines, then the additional info. *)
Lemma print_results_200 name url resp t s :
  status_code resp = 200 ->
  print_results name resp (response_info_of name url resp t) s =
  match response_data_of resp with
  | PDict data =>
      ((if contains "message" data then
          msg ← getitem data "message";
          print (fstr (Text "   Message: " :: py_str msg))
        else ret tt);;
       (if contains "uptime" data then
          up ← getitem data "uptime";
          up_text ← lift (py_format_f 1 up);
          print (fstr [Text "   Uptime: "; Text up_text; Text "s"])
        else ret tt))
        (printed [alive_line name resp; response_time_line resp] s)
  | _ => (Ret tt, printed [alive_line name resp; response_time_line resp] s)
  end.
Proof.
  intros H. unfold print_results. rewrite H. simpl (200 =? 200).
  cbv iota. rewrite run_bind, print_run. cbv beta iota.
  rewrite run_bind.
  rewrite (getitem_lookup _ "response_time" (PFloat (elapsed_seconds resp)))
    by reflexivity.
  cbv beta iota. rewrite run_bind. simpl lift.
  change (ret ?a ?s0) with (Ret a, s0). cbv beta iota.
  rewrite run_bind, print_run, printed_printed. cbv beta iota.
  replace (contains "response_data" (response_info_of name url resp t))
    with true by reflexivity.
  cbv iota. rewrite run_bind.
  rewrite (getitem_lookup _ "response_data" (response_data_of resp))
    by reflexivity.
  cbv beta iota. rewrite <- H.
  destruct (response_data_of resp); reflexivity.
Qed.
End Lemmas.

(** ** Properties of the probe *)

(** C1. A probe that receives a 200 response whose JSON body is
    {"uptime": "5 minutes"} returns a failure dictionary: its success entry
    is False and its error entry is the message of the ValueError raised
    while the uptime line is formatted. *)
Theorem ok_response_reported_failed :
  request_outcome world_text_uptime initial "https://a/ping"
    = Responded resp_text_uptime /\
  status_code resp_text_uptime = 200 /\
  fst (ping_server world_text_uptime "https://a/ping" "A" initial)
    = Ret (failure_info "A" "https://a/ping"
             "Unknown format code 'f' for object of type 'str'" noon) /\
  failure_info "A" "https://a/ping"
    "Unknown format code 'f' for object of type 'str'" noon !! "success"
    = Some (PBool false).
Proof.
  split; [reflexivity |]. split; [reflexivity |].
  split; [vm_compute; reflexivity | reflexivity].
Qed.

(** The same for every world: a 200 response whose body is a mapping with a
    text under "uptime" ends in the last [except] clause. *)
Lemma text_uptime_fails
    (w : world) (url name : string) (s : state) (resp : response)
    (data : pydict) (u : string) :
  request_outcome w s url = Responded resp ->
  status_code resp = 200 ->
  json_body resp = JsonValue (PDict data) ->
  data !! "uptime" = Some (PStr u) ->
  exists t s',
    ping_server w url name s =
    (Ret (failure_info name url
            "Unknown format code 'f' for object of type 'str'" t), s').
Proof.
  intros Hout Hst Hjson Hup.
  assert (Hdata : response_data_of resp = PDict data)
    by (unfold response_data_of; by rewrite Hjson).
  rewrite ping_server_run, (ping_server_try_responded _ _ _ _ _ Hout).
  rewrite (print_results_200 _ _ _ _ _ Hst), Hdata.
  rewrite run_bind.
  match goal with |- context [(if contains "message" data then ?a else ?b) ?s0] =>
    assert (Hmsg : exists s2, (if contains "message" data then a else b) s0
                              = (Ret tt, s2))
  end.
  { unfold contains. case_bool_decide as Hm; [| by eexists].
    destruct Hm as [m Hm]. rewrite run_bind, (getitem_lookup _ _ _ _ Hm).
    cbv beta iota. rewrite print_run. by eexists. }
  destruct Hmsg as [s2 ->]. cbv beta iota.
  replace (contains "uptime" data) with true
    by (unfold contains; rewrite Hup; reflexivity).
  rewrite run_bind, (getitem_lookup _ _ _ _ Hup). cbv beta iota.
  rewrite run_bind. simpl lift. unfold raise at 1. cbv beta iota.
  eexists _, _. reflexivity.
Qed.


(** With a stdout that accepts every line and no interrupt, [ping_server]
    returns a result by value, a failure dictionary whenever its [try]
    block raised. *)
Lemma ping_server_never_raises (w : world) (url name : string) (s : state) :
  exists r s',
    ping_server w url name s = (Ret r, s') /\
    (forall e s1,
        ping_server_try w url name s = (Raise e, s1) ->
        exists error t, r = failure_info name url error t).
Proof.
  rewrite ping_server_run.
  destruct (ping_server_try w url name s) as [[r | e] s1].
  - exists r, s1. split; [reflexivity |]. intros e s2 H. discriminate H.
  - eexists _, _. split; [reflexivity |]. intros e' s2 _. eauto.
Qed.

(** C4. An exception raised during the probe is turned into a result with
    success False and no status code, whose error entry is "timeout" for a
    request timeout, "connection_error" for a connection failure (that is
    not a timeout), and the text of the exception for any other one. *)
Theorem ping_server_classifies_failures
    (w : world) (url name : string) (s s1 : state) (e : exn) :
  ping_server_try w url name s = (Raise e, s1) ->
  exists r s',
    ping_server w url name s = (Ret r, s') /\
    r !! "success" = Some (PBool false) /\
    r !! "status_code" = None /\
    (issubclass (exn_cls e) E_Timeout = true ->
     r !! "error" = Some (PStr "timeout")) /\
    (issubclass (exn_cls e) E_Timeout = false ->
     issubclass (exn_cls e) E_ConnectionError = true ->
     r !! "error" = Some (PStr "connection_error")) /\
    (issubclass (exn_cls e) E_Timeout = false ->
     issubclass (exn_cls e) E_ConnectionError = false ->
     r !! "error" = Some (PStr (exn_str e))).
Proof.
  intros H. rewrite ping_server_run, H.
  eexists _, _. split; [reflexivity |].
  unfold error_kind.
  repeat split; try reflexivity.
  - intros ->. reflexivity.
  - intros -> ->. reflexivity.
  - intros -> ->. reflexivity.
Qed.

(** With a stdout that accepts every line and [response.json()] keeping
    to its contract, a response with a status code other than 200 gives the
    dictionary of a completed exchange. *)
Lemma non_200_is_completed
    (w : world) (url name : string) (s : state) (resp : response) :
  request_outcome w s url = Responded resp ->
  status_code resp <> 200 ->
  exists r s',
    ping_server w url name s = (Ret r, s') /\
    r = response_info_of name url resp (clock w (S (clock_reads s))) /\
    r !! "status_code" = Some (PInt (status_code resp)) /\
    r !! "success" = Some (PBool false) /\
    r !! "error" = None.
Proof.
  intros Hout Hst.
  rewrite ping_server_run, (ping_server_try_responded _ _ _ _ _ Hout).
  rewrite print_results_other by exact Hst.
  eexists _, _. split; [reflexivity |]. split; [reflexivity |].
  repeat split.
  rewrite response_info_success.
  destruct (Z.eqb_spec (status_code resp) 200); [done | reflexivity].
Qed.

(** With a stdout that accepts every line, when [response.json()] raises
    JSONDecodeError the "response_data" entry is the raw text of the body. *)
Lemma text_body_is_kept
    (w : world) (url name : string) (s : state) (resp : response) (msg : string) :
  request_outcome w s url = Responded resp ->
  json_body resp = JsonDecodeError msg ->
  exists r s',
    ping_server w url name s = (Ret r, s') /\
    r !! "response_data" = Some (PStr (text resp)) /\
    r !! "status_code" = Some (PInt (status_code resp)) /\
    r !! "success" = Some (PBool (status_code resp =? 200)) /\
    r !! "error" = None.
Proof.
  intros Hout Hjson.
  assert (Hdata : response_data_of resp = PStr (text resp))
    by (unfold response_data_of; by rewrite Hjson).
  rewrite ping_server_run, (ping_server_try_responded _ _ _ _ _ Hout).
  assert (Hprint : exists s2,
             print_results name resp
               (response_info_of name url resp (clock w (S (clock_reads s))))
               (mk_state (net_calls s ++ [(url, 30)]) (S (S (clock_reads s)))
                  (stdout s ++ [start_line (clock w (clock_reads s)) name url]))
             = (Ret tt, s2)).
  { destruct (Z.eq_dec (status_code resp) 200) as [E | E].
    - rewrite (print_results_200 _ _ _ _ _ E), Hdata. eauto.
    - rewrite (print_results_other _ _ _ _ E). eauto. }
  destruct Hprint as [s2 ->].
  eexists _, _. split; [reflexivity |].
  unfold response_info_of. rewrite Hdata. repeat split.
Qed.

(** C8. A 200 response whose JSON body is the mapping
    {"message": "ok", "uptime": 12.34} gives success True and that mapping
    as "response_data", and prints, after the start line and the two status
    lines, the lines "   Message: ok" and "   Uptime: 12.3s". *)
Theorem ok_body_is_reported
    (w : world) (url name : string) (s : state) (resp : response) :
  request_outcome w s url = Responded resp ->
  status_code resp = 200 ->
  json_body resp = JsonValue (PDict body_ok) ->
  exists r s',
    ping_server w url name s = (Ret r, s') /\
    r !! "success" = Some (PBool true) /\
    r !! "response_data" = Some (PDict body_ok) /\
    stdout s' =
    stdout s ++
    [start_line (clock w (clock_reads s)) name url;
     alive_line name resp;
     response_time_line resp;
     [Text "   Message: ok"];
     [Text "   Uptime: 12.3s"]].
Proof.
  intros Hout Hst Hjson.
  assert (Hdata : response_data_of resp = PDict body_ok)
    by (unfold response_data_of; by rewrite Hjson).
  rewrite ping_server_run, (ping_server_try_responded _ _ _ _ _ Hout).
  rewrite (print_results_200 _ _ _ _ _ Hst), Hdata.
  eexists _, _. split; [reflexivity |].
  split; [| split].
  - rewrite response_info_success, Hst. reflexivity.
  - unfold response_info_of. rewrite Hdata. reflexivity.
  - simpl. by rewrite <- !app_assoc.
Qed.

(** C9. Every result holds either a status code and no error entry, or an
    error entry and no status code; and its success entry is True only if
    the status code is present and is 200. *)
Theorem result_shape (w : world) (url name : string) (s : state) :
  exists r s',
    ping_server w url name s = (Ret r, s') /\
    ((is_Some (r !! "status_code") /\ r !! "error" = None) \/
     (r !! "status_code" = None /\ is_Some (r !! "error"))) /\
    (r !! "success" = Some (PBool true) ->
     r !! "status_code" = Some (PInt 200)).
Proof.
  destruct (ping_server_cases w url name s) as (r & s' & Hrun & _ & Hr).
  exists r, s'. split; [exact Hrun |].
  destruct Hr as [(resp & t & _ & ->) | (error & t & ->)].
  - split; [left; split; [by eexists | reflexivity] |].
    rewrite response_info_success. intros H.
    injection H as H. apply Z.eqb_eq in H.
    change (Some (PInt (status_code resp)) = Some (PInt 200)). by rewrite H.
  - split; [right; split; [reflexivity | by eexists] |].
    rewrite failure_info_success. discriminate.
Qed.

(** What the code does give: a 200 response yields success True whenever
    the uptime entry of a mapping body, if there is one, can be formatted
    with [.1f]. *)
Lemma formattable_200_succeeds
    (w : world) (url name : string) (s : state) (resp : response) :
  request_outcome w s url = Responded resp ->
  status_code resp = 200 ->
  (forall data up,
      response_data_of resp = PDict data ->
      data !! "uptime" = Some up ->
      exists up_text, py_format_f 1 up = inr up_text) ->
  exists r s',
    ping_server w url name s = (Ret r, s') /\
    r = response_info_of name url resp (clock w (S (clock_reads s))) /\
    r !! "success" = Some (PBool true).
Proof.
  intros Hout Hst Hfmt.
  rewrite ping_server_run, (ping_server_try_responded _ _ _ _ _ Hout).
  rewrite (print_results_200 _ _ _ _ _ Hst).
  assert (Hs : response_info_of name url resp (clock w (S (clock_reads s)))
               !! "success" = Some (PBool true))
    by (rewrite response_info_success, Hst; reflexivity).
  destruct (response_data_of resp) as [| | | | | | data] eqn:Hdata;
    try (eexists _, _; split; [reflexivity |]; split; [reflexivity | exact Hs]).
  rewrite run_bind.
  match goal with |- context [(if contains "message" data then ?a else ?b) ?s0] =>
    assert (Hmsg : exists s2, (if contains "message" data then a else b) s0
                              = (Ret tt, s2))
  end.
  { unfold contains. case_bool_decide as Hm; [| by eexists].
    destruct Hm as [m Hm]. rewrite run_bind, (getitem_lookup _ _ _ _ Hm).
    cbv beta iota. rewrite print_run. by eexists. }
  destruct Hmsg as [s2 ->]. cbv beta iota.
  unfold contains. case_bool_decide as Hu.
  - destruct Hu as [up Hup].
    destruct (Hfmt data up eq_refl Hup) as [up_text Hup_text].
    rewrite run_bind, (getitem_lookup _ _ _ _ Hup). cbv beta iota.
    rewrite run_bind, Hup_text. simpl lift. unfold ret at 1. cbv beta iota.
    rewrite print_run.
    eexists _, _. split; [reflexivity |]. split; [reflexivity | exact Hs].
  - eexists _, _. split; [reflexivity |]. split; [reflexivity | exact Hs].
Qed.

(** ** Properties of the run over all servers *)

(** C3. The run returns 0 when every result counts as successful and 1
    otherwise; its last lines are the summary block, with the line
    "Servers responding: k/n" (k successful results, n targets) followed by
    the all-healthy message in the first case and by the other message in
    the second. *)
Theorem ping_servers_exit_code (w : world) (srvs : list server) (s : state) :
  exists rs s1 s',
    probes_chain w (printed header s) srvs rs s1 /\
    length rs = length srvs /\
    ping_servers w srvs s = (Ret (if forallb success_of rs then 0 else 1), s') /\
    stdout s' =
    stdout s1 ++
    [banner; [Text "SUMMARY"]; banner;
     summary_line (successes rs) (length srvs);
     if forallb success_of rs then healthy_line else unhealthy_line].
Proof.
  destruct (ping_servers_run w srvs s) as (rs & s1 & Hch & _ & Hrun).
  exists rs, s1. eexists. split; [exact Hch |].
  split; [exact (probes_chain_length _ _ _ _ _ Hch) |].
  split; [exact Hrun |]. reflexivity.
Qed.

(** C7. The run probes the targets one after the other in list order, one
    request and one result per target whatever the earlier probes gave, and
    then prints the summary line with the number of successful results over
    the number of targets. *)
Theorem ping_servers_probes_all (w : world) (srvs : list server) (s : state) :
  exists rs s1 code s',
    probes_chain w (printed header s) srvs rs s1 /\
    length rs = length srvs /\
    net_calls s1 = net_calls s ++ map (fun srv => (url_of srv, 30)) srvs /\
    ping_servers w srvs s = (Ret code, s') /\
    net_calls s' = net_calls s1 /\
    exists final,
      stdout s' =
      stdout s1 ++
      [banner; [Text "SUMMARY"]; banner;
       summary_line (successes rs) (length srvs); final].
Proof.
  destruct (ping_servers_run w srvs s) as (rs & s1 & Hch & Hnet & Hrun).
  exists rs, s1. eexists _, _. split; [exact Hch |].
  split; [exact (probes_chain_length _ _ _ _ _ Hch) |].
  split; [exact Hnet |].
  split; [exact Hrun |]. split; [reflexivity |].
  eexists. reflexivity.
Qed.

(** C10. Over an empty list of targets the run makes no request, prints
    "Servers responding: 0/0" and the all-healthy message, and returns 0. *)
Theorem ping_servers_empty (w : world) (s : state) :
  ping_servers w [] s =
  (Ret 0,
   printed (header ++
            [banner; [Text "SUMMARY"]; banner;
             [Text "Servers responding: 0/0"];
             [Text "🎉 All servers are healthy!"]]) s).
Proof.
  destruct (ping_servers_run w [] s) as (rs & s1 & Hch & _ & Hrun).
  destruct rs as [| r rs]; [| destruct Hch].
  simpl in Hch. subst s1. rewrite Hrun, printed_printed. reflexivity.
Qed.

(** ** The statements at concrete worlds *)

Lemma ping_server_classifies_failures_witness :
  ping_server_try world_one_of_two "https://b/ping" "B"
    (mk_state [("https://a/ping", 30)] 2 [])
  = (Raise connect_timeout,
     mk_state [("https://a/ping", 30); ("https://b/ping", 30)] 3
       [start_line noon "B" "https://b/ping"]) /\
  exists r s',
    ping_server world_one_of_two "https://b/ping" "B"
      (mk_state [("https://a/ping", 30)] 2 []) = (Ret r, s') /\
    r !! "success" = Some (PBool false) /\
    r !! "error" = Some (PStr "timeout").
Proof.
  assert (H : ping_server_try world_one_of_two "https://b/ping" "B"
                (mk_state [("https://a/ping", 30)] 2 [])
              = (Raise connect_timeout,
                 mk_state [("https://a/ping", 30); ("https://b/ping", 30)] 3
                   [start_line noon "B" "https://b/ping"]))
    by (vm_compute; reflexivity).
  split; [exact H |].
  destruct (ping_server_classifies_failures _ _ _ _ _ _ H)
    as (r & s' & Hrun & Hs & _ & Ht & _).
  exists r, s'. split; [exact Hrun |]. split; [exact Hs |].
  apply Ht. reflexivity.
Defined.

Lemma ok_body_is_reported_witness :
  request_outcome world_one_of_two initial "https://a/ping" = Responded resp_ok /\
  status_code resp_ok = 200 /\
  json_body resp_ok = JsonValue (PDict body_ok) /\
  exists r s',
    ping_server world_one_of_two "https://a/ping" "A" initial = (Ret r, s') /\
    r !! "success" = Some (PBool true) /\
    r !! "response_data" = Some (PDict body_ok) /\
    stdout s' =
    [ [Text "2024-03-05 12:00:00: Pinging A at https://a/ping"];
      [Text "✅ A is alive (Status: 200)"];
      [Text "   Response time: 0.250s"];
      [Text "   Message: ok"];
      [Text "   Uptime: 12.3s"] ].
Proof.
  assert (H1 : request_outcome world_one_of_two initial "https://a/ping"
               = Responded resp_ok) by reflexivity.
  assert (H2 : status_code resp_ok = 200) by reflexivity.
  assert (H3 : json_body resp_ok = JsonValue (PDict body_ok)) by reflexivity.
  split; [exact H1 |]. split; [exact H2 |]. split; [exact H3 |].
  destruct (ok_body_is_reported world_one_of_two "https://a/ping" "A" initial
              resp_ok H1 H2 H3) as (r & s' & Hrun & Hs & Hd & Hout).
  exists r, s'. split; [exact Hrun |]. split; [exact Hs |].
  split; [exact Hd |]. rewrite Hout. vm_compute. reflexivity.
Defined.

(** ** Examples *)

(** The float stored for the JSON number 12.34 is 1234/100 rounded to the
    nearest binary64 number. *)
Example uptime_12_34_nearest :
  SFdiv 53 1024 (S754_finite false 1234 0) (S754_finite false 100 0)
  = uptime_12_34.
Proof. vm_compute. reflexivity. Qed.

Example format_12_34 : py_format_f 1 (PFloat uptime_12_34) = inr "12.3".
Proof. vm_compute. reflexivity. Qed.

Example format_tie_to_even : Fmt.format_float 1 quarter = "0.2".
Proof. vm_compute. reflexivity. Qed.

Example format_negative_zero :
  Fmt.format_float 1 (S754_finite true 5764607523034235 (-57)) = "-0.0".
Proof. vm_compute. reflexivity. Qed.

Example format_int : py_format_f 3 (PInt 41) = inr "41.000".
Proof. vm_compute. reflexivity. Qed.

Example format_huge_int :
  py_format_f 1 (PInt (10 ^ 400))
  = inl (mk_exn E_OverflowError "int too large to convert to float").
Proof. vm_compute. reflexivity. Qed.

Example isoformat_microseconds :
  isoformat "T" (mk_datetime 2024 3 5 7 8 9 120) = "2024-03-05T07:08:09.000120".
Proof. vm_compute. reflexivity. Qed.

Example connect_timeout_is_both :
  issubclass E_ConnectTimeout E_Timeout = true /\
  issubclass E_ConnectTimeout E_ConnectionError = true.
Proof. split; reflexivity. Qed.

(** One target answers 200 and the other times out: exit code 1, "1/2". *)
Example run_one_of_two :
  fst (ping_all_servers world_one_of_two initial) = Ret 1 /\
  In [Text "Servers responding: 1/2"]
     (stdout (snd (ping_all_servers world_one_of_two initial))) /\
  last (stdout (snd (ping_all_servers world_one_of_two initial)))
  = Some unhealthy_line.
Proof. vm_compute. intuition. Qed.

(** Both targets answer 200: exit code 0 and the all-healthy message. *)
Example run_two_of_two :
  fst (ping_all_servers world_two_of_two initial) = Ret 0 /\
  In [Text "Servers responding: 2/2"]
     (stdout (snd (ping_all_servers world_two_of_two initial))) /\
  last (stdout (snd (ping_all_servers world_two_of_two initial)))
  = Some healthy_line.
Proof. vm_compute. intuition. Qed.

(** An unreachable host: "connection_error", success False. *)
Example run_refused :
  fst (ping_server world_refused "https://a/ping" "A" initial)
  = Ret (failure_info "A" "https://a/ping" "connection_error" noon).
Proof. vm_compute. reflexivity. Qed.


(** ** The complete behaviour of a probe *)

Lemma message_block_run (data : pydict) (s : state) :
  (if contains "message" data then
     msg ← getitem data "message";
     print (fstr (Text "   Message: " :: py_str msg))
   else ret tt) s
  = (Ret tt, printed (message_lines data) s).
Proof.
  unfold contains, message_lines.
  destruct (data !! "message") as [msg |] eqn:Hm.
  - rewrite bool_decide_true by eauto.
    rewrite run_bind, (getitem_lookup _ _ _ _ Hm). cbv beta iota.
    apply print_run.
  - rewrite bool_decide_false by (intros [? ?]; discriminate).
    unfold ret, printed. destruct s. simpl. by rewrite app_nil_r.
Qed.

Lemma uptime_block_run (data : pydict) (s : state) :
  (if contains "uptime" data then
     up ← getitem data "uptime";
     up_text ← lift (py_format_f 1 up);
     print (fstr [Text "   Uptime: "; Text up_text; Text "s"])
   else ret tt) s
  = match data !! "uptime" with
    | Some up =>
        match py_format_f 1 up with
        | inr up_text => (Ret tt, printed [[Text ("   Uptime: " +:+ up_text +:+ "s")]] s)
        | inl e => (Raise e, s)
        end
    | None => (Ret tt, s)
    end.
Proof.
  unfold contains.
  destruct (data !! "uptime") as [up |] eqn:Hu.
  - rewrite bool_decide_true by eauto.
    rewrite run_bind, (getitem_lookup _ _ _ _ Hu). cbv beta iota.
    rewrite run_bind. destruct (py_format_f 1 up) as [e | up_text]; reflexivity.
  - rewrite bool_decide_false by (intros [? ?]; discriminate). reflexivity.
Qed.

(** A 200 response: the two status lines and the message line are printed;
    then the uptime line, unless formatting the uptime raises. *)
Lemma print_results_200_run (name url : string) (resp : response)
    (t : datetime) (s : state) :
  status_code resp = 200 ->
  print_results name resp (response_info_of name url resp t) s =
  match response_data_of resp with
  | PDict data =>
      match data !! "uptime" with
      | Some up =>
          match py_format_f 1 up with
          | inr up_text =>
              (Ret tt,
               printed ([alive_line name resp; response_time_line resp] ++
                        message_lines data ++
                        [[Text ("   Uptime: " +:+ up_text +:+ "s")]]) s)
          | inl e =>
              (Raise e,
               printed ([alive_line name resp; response_time_line resp] ++
                        message_lines data) s)
          end
      | None =>
          (Ret tt,
           printed ([alive_line name resp; response_time_line resp] ++
                    message_lines data) s)
      end
  | _ => (Ret tt, printed [alive_line name resp; response_time_line resp] s)
  end.
Proof.
  intros Hst. rewrite (print_results_200 _ _ _ _ _ Hst).
  destruct (response_data_of resp) as [| | | | | | data]; try reflexivity.
  rewrite run_bind, message_block_run. cbv beta iota.
  rewrite uptime_block_run, printed_printed.
  destruct (data !! "uptime") as [up |]; [| reflexivity].
  destruct (py_format_f 1 up); [reflexivity |].
  by rewrite printed_printed, <- app_assoc.
Qed.

Lemma ping_server_failed_run (w : world) (url name : string) (s : state) (e : exn) :
  request_outcome w s url = Failed e ->
  ping_server w url name s =
  (Ret (failure_info name url (error_kind e) (clock w (S (clock_reads s)))),
   probed w url name 2 [error_line name e] s).
Proof.
  intros Hout. rewrite ping_server_run, (ping_server_try_failed _ _ _ _ _ Hout).
  unfold probed. simpl. by rewrite <- app_assoc.
Qed.

Lemma ping_server_other_run (w : world) (url name : string) (s : state)
    (resp : response) :
  request_outcome w s url = Responded resp ->
  status_code resp <> 200 ->
  ping_server w url name s =
  (Ret (response_info_of name url resp (clock w (S (clock_reads s)))),
   probed w url name 2 [warning_line name resp] s).
Proof.
  intros Hout Hst.
  rewrite ping_server_run, (ping_server_try_responded _ _ _ _ _ Hout).
  rewrite print_results_other by exact Hst.
  unfold probed, printed. simpl. by rewrite <- app_assoc.
Qed.

Lemma ping_server_200_run (w : world) (url name : string) (s : state)
    (resp : response) :
  request_outcome w s url = Responded resp ->
  status_code resp = 200 ->
  uptime_formattable resp = true ->
  ping_server w url name s =
  (Ret (response_info_of name url resp (clock w (S (clock_reads s)))),
   probed w url name 2
     ([alive_line name resp; response_time_line resp] ++
      additional_lines (response_data_of resp)) s).
Proof.
  intros Hout Hst Hfmt.
  rewrite ping_server_run, (ping_server_try_responded _ _ _ _ _ Hout).
  rewrite (print_results_200_run _ _ _ _ _ Hst).
  unfold uptime_formattable in Hfmt. unfold additional_lines, uptime_lines.
  destruct (response_data_of resp) as [| | | | | | data];
    try (unfold probed, printed; simpl; by rewrite <- app_assoc).
  destruct (data !! "uptime") as [up |].
  - destruct (py_format_f 1 up) as [e | up_text]; [discriminate Hfmt |].
    unfold probed, printed. simpl. by rewrite <- app_assoc.
  - unfold probed, printed. simpl. by rewrite <- app_assoc, app_nil_r.
Qed.

(** A 200 response whose uptime cannot be formatted. *)
Lemma ping_server_200_raised_run (w : world) (url name : string) (s : state)
    (resp : response) (data : pydict) (up : pyval) (e : exn) :
  request_outcome w s url = Responded resp ->
  status_code resp = 200 ->
  response_data_of resp = PDict data ->
  data !! "uptime" = Some up ->
  py_format_f 1 up = inl e ->
  ping_server w url name s =
  (Ret (failure_info name url (error_kind e) (clock w (S (S (clock_reads s))))),
   probed w url name 3
     ([alive_line name resp; response_time_line resp] ++
      message_lines data ++ [error_line name e]) s).
Proof.
  intros Hout Hst Hdata Hup Hfmt.
  rewrite ping_server_run, (ping_server_try_responded _ _ _ _ _ Hout).
  rewrite (print_results_200_run _ _ _ _ _ Hst), Hdata, Hup, Hfmt.
  unfold probed, printed. simpl. by rewrite <- !app_assoc.
Qed.

(** Every probe ends in one of these four ways. *)
Lemma ping_server_ways (w : world) (url name : string) (s : state) :
  exists r reads ls,
    ping_server w url name s = (Ret r, probed w url name reads ls s) /\
    ls <> [] /\
    ((reads = 2%nat /\
      exists resp,
        request_outcome w s url = Responded resp /\
        r = response_info_of name url resp (clock w (S (clock_reads s)))) \/
     ((reads = 2%nat \/ reads = 3%nat) /\
      exists error,
        r = failure_info name url error
              (clock w (Nat.pred (reads + clock_reads s))))).
Proof.
  destruct (request_outcome w s url) as [resp | e] eqn:Hout.
  - destruct (Z.eq_dec (status_code resp) 200) as [Hst | Hst].
    + destruct (uptime_formattable resp) eqn:Hfmt.
      * eexists _, _, _. split; [exact (ping_server_200_run _ _ _ _ _ Hout Hst Hfmt) |].
        split; [discriminate |]. left. eauto.
      * unfold uptime_formattable in Hfmt.
        destruct (response_data_of resp) as [| | | | | | data] eqn:Hdata;
          try discriminate Hfmt.
        destruct (data !! "uptime") as [up |] eqn:Hup; [| discriminate Hfmt].
        destruct (py_format_f 1 up) as [e | up_text] eqn:He; [| discriminate Hfmt].
        eexists _, _, _.
        split; [exact (ping_server_200_raised_run _ _ _ _ _ _ _ _ Hout Hst Hdata Hup He) |].
        split; [discriminate |]. right. split; [by right |]. eauto.
    + eexists _, _, _. split; [exact (ping_server_other_run _ _ _ _ _ Hout Hst) |].
      split; [discriminate |]. left. eauto.
  - eexists _, _, _. split; [exact (ping_server_failed_run _ _ _ _ _ Hout) |].
    split; [discriminate |]. right. split; [by left |]. eauto.
Qed.

(** ** Further properties of the probe *)

(** X1. Whatever the outcome, a probe issues exactly one GET request, to
    the url it was given and with a timeout of 30: there is no retry. *)
Theorem ping_server_one_request (w : world) (url name : string) (s : state) :
  exists r s',
    ping_server w url name s = (Ret r, s') /\
    net_calls s' = net_calls s ++ [(url, 30)].
Proof.
  destruct (ping_server_ways w url name s) as (r & reads & ls & Hrun & _).
  eexists _, _. split; [exact Hrun | reflexivity].
Qed.

(** X2. Every result carries the server name and the url of the call, a
    boolean under "success", and under "timestamp" the ISO text of the last
    clock reading of the probe, which is taken after the request. *)
Theorem ping_server_result_fields (w : world) (url name : string) (s : state) :
  exists r s' n,
    ping_server w url name s = (Ret r, s') /\
    r !! "server" = Some (PStr name) /\
    r !! "url" = Some (PStr url) /\
    (exists b, r !! "success" = Some (PBool b)) /\
    clock_reads s' = S n /\
    (clock_reads s < n)%nat /\
    r !! "timestamp" = Some (PStr (isoformat "T" (clock w n))).
Proof.
  destruct (ping_server_ways w url name s) as (r & reads & ls & Hrun & _ & Hr).
  destruct Hr as [(-> & resp & _ & ->) | (Hreads & error & ->)].
  - eexists _, _, (S (clock_reads s)). split; [exact Hrun |].
    repeat split; try reflexivity; [by eexists | lia].
  - eexists _, _, (Nat.pred (reads + clock_reads s)). split; [exact Hrun |].
    repeat split; try reflexivity; [by eexists | | ];
      destruct Hreads as [-> | ->]; simpl; lia.
Qed.

(** X3. A probe keeps what was printed before, and adds first its start
    line ("<now>: Pinging <name> at <url>") and then at least one line. *)
Theorem ping_server_prints_start_first
    (w : world) (url name : string) (s : state) :
  exists r s' l rest,
    ping_server w url name s = (Ret r, s') /\
    stdout s' =
    stdout s ++ start_line (clock w (clock_reads s)) name url :: l :: rest.
Proof.
  destruct (ping_server_ways w url name s) as (r & reads & ls & Hrun & Hls & _).
  destruct ls as [| l rest]; [done |].
  eexists _, _, l, rest. split; [exact Hrun | reflexivity].
Qed.

(** X4. When [requests.get] raises, the probe prints exactly two lines, the
    start line and the line of the clause that handles the exception, and
    reads the clock twice; the timestamp of the result is the second
    reading. *)
Theorem failed_request_report
    (w : world) (url name : string) (s : state) (e : exn) :
  request_outcome w s url = Failed e ->
  exists s',
    ping_server w url name s =
    (Ret (failure_info name url (error_kind e) (clock w (S (clock_reads s)))), s') /\
    stdout s' =
    stdout s ++ [start_line (clock w (clock_reads s)) name url; error_line name e] /\
    clock_reads s' = S (S (clock_reads s)).
Proof.
  intros Hout. eexists. split; [exact (ping_server_failed_run _ _ _ _ _ Hout) |].
  split; reflexivity.
Qed.

(** The lines of a response with a status other than 200, without faults. *)
Lemma non_200_report
    (w : world) (url name : string) (s : state) (resp : response) :
  request_outcome w s url = Responded resp ->
  status_code resp <> 200 ->
  exists r s',
    ping_server w url name s = (Ret r, s') /\
    r !! "response_data" = Some (response_data_of resp) /\
    stdout s' =
    stdout s ++
    [start_line (clock w (clock_reads s)) name url;
     [Text ("⚠️ " +:+ name +:+ " returned unexpected status code: " +:+
            pretty (status_code resp))]].
Proof.
  intros Hout Hst. eexists _, _.
  split; [exact (ping_server_other_run _ _ _ _ _ Hout Hst) |].
  split; reflexivity.
Qed.

(** The result and the lines of a 200 response whose uptime entry (if
    any) can be formatted, without faults. *)
Lemma ok_response_report
    (w : world) (url name : string) (s : state) (resp : response) :
  request_outcome w s url = Responded resp ->
  status_code resp = 200 ->
  uptime_formattable resp = true ->
  exists r s',
    ping_server w url name s = (Ret r, s') /\
    r = response_info_of name url resp (clock w (S (clock_reads s))) /\
    r !! "success" = Some (PBool true) /\
    stdout s' =
    stdout s ++
    [start_line (clock w (clock_reads s)) name url;
     [Text ("✅ " +:+ name +:+ " is alive (Status: 200)")];
     [Text ("   Response time: " +:+
            Fmt.format_float 3 (elapsed_seconds resp) +:+ "s")]] ++
    additional_lines (response_data_of resp).
Proof.
  intros Hout Hst Hfmt. eexists _, _.
  split; [exact (ping_server_200_run _ _ _ _ _ Hout Hst Hfmt) |].
  split; [reflexivity |]. split.
  - rewrite response_info_success, Hst. reflexivity.
  - unfold probed, alive_line, response_time_line. rewrite Hst. reflexivity.
Qed.

(** Bodies of a 200 response that give success True, without faults. *)
Lemma healthy_bodies
    (w : world) (url name : string) (s : state) (resp : response) :
  request_outcome w s url = Responded resp ->
  status_code resp = 200 ->
  ((forall data, response_data_of resp <> PDict data) \/
   (exists data,
       response_data_of resp = PDict data /\
       (data !! "uptime" = None \/ exists f, data !! "uptime" = Some (PFloat f)))) ->
  exists r s',
    ping_server w url name s = (Ret r, s') /\
    r !! "success" = Some (PBool true) /\
    r !! "status_code" = Some (PInt 200) /\
    r !! "error" = None.
Proof.
  intros Hout Hst Hbody.
  assert (Hfmt : uptime_formattable resp = true).
  { unfold uptime_formattable.
    destruct Hbody as [Hno | (data & -> & [-> | (f & ->)])]; try reflexivity.
    destruct (response_data_of resp) as [| | | | | | data]; try reflexivity.
    by destruct (Hno data). }
  eexists _, _.
  split; [exact (ping_server_200_run _ _ _ _ _ Hout Hst Hfmt) |].
  split; [| split].
  - rewrite response_info_success, Hst. reflexivity.
  - change (Some (PInt (status_code resp)) = Some (PInt 200)). by rewrite Hst.
  - reflexivity.
Qed.

(** ** Further properties of the run *)

(** What holds of every probe result holds of every result of a run. *)
Lemma probes_chain_Forall (w : world) (P : pydict -> Prop) :
  (forall url name s r s', ping_server w url name s = (Ret r, s') -> P r) ->
  forall srvs s rs s', probes_chain w s srvs rs s' -> Forall P rs.
Proof.
  intros HP. induction srvs as [| srv rest IH]; intros s [| r rs] s' H;
    simpl in H; try done.
  destruct H as (s1 & Hr & H). constructor; eauto.
Qed.

(** A result counts as successful exactly when it carries status code 200. *)
Lemma success_iff_status_200 (w : world) (url name : string) (s s' : state)
    (r : pydict) :
  ping_server w url name s = (Ret r, s') ->
  success_of r = true <-> r !! "status_code" = Some (PInt 200).
Proof.
  intros Hrun.
  destruct (ping_server_cases w url name s) as (r0 & s0 & H0 & _ & Hr).
  rewrite Hrun in H0. injection H0 as <- <-.
  destruct Hr as [(resp & t & _ & ->) | (error & t & ->)].
  - unfold success_of. rewrite response_info_success. simpl truthy.
    change (response_info_of name url resp t !! "status_code")
      with (Some (PInt (status_code resp))).
    rewrite Z.eqb_eq. split; [by intros -> | by intros [= ->]].
  - split; discriminate.
Qed.

Lemma forallb_Forall_iff (P : pydict -> Prop) (rs : list pydict) :
  Forall (fun r => success_of r = true <-> P r) rs ->
  forallb success_of rs = true <-> Forall P rs.
Proof.
  induction 1 as [| r rs Hr _ IH]; simpl.
  - split; [constructor | reflexivity].
  - rewrite andb_true_iff, IH, Hr. split.
    + intros [? ?]. by constructor.
    + intros H. inversion H. by split.
Qed.

Lemma successes_none (rs : list pydict) :
  Forall (fun r => success_of r = false) rs -> successes rs = 0%nat.
Proof.
  unfold successes. induction 1 as [| r rs Hr _ IH]; [reflexivity |].
  simpl. by rewrite Hr.
Qed.

Lemma successes_every (rs : list pydict) :
  Forall (fun r => success_of r = true) rs ->
  successes rs = length rs /\ forallb success_of rs = true.
Proof.
  unfold successes. induction 1 as [| r rs Hr _ [IH1 IH2]]; [done |].
  simpl. rewrite Hr. simpl. by rewrite IH1, IH2.
Qed.

(** X8. The run returns 0 or 1, and it returns 0 exactly when every result
    carries status code 200. *)
Theorem exit_zero_iff_all_200 (w : world) (srvs : list server) (s : state) :
  exists rs s1 code s',
    probes_chain w (printed header s) srvs rs s1 /\
    ping_servers w srvs s = (Ret code, s') /\
    (code = 0 \/ code = 1) /\
    (code = 0 <-> Forall (fun r => r !! "status_code" = Some (PInt 200)) rs).
Proof.
  destruct (ping_servers_run w srvs s) as (rs & s1 & Hch & _ & Hrun).
  exists rs, s1. eexists _, _. split; [exact Hch |]. split; [exact Hrun |].
  assert (Hiff : forallb success_of rs = true <->
                 Forall (fun r => r !! "status_code" = Some (PInt 200)) rs).
  { apply forallb_Forall_iff.
    eapply (probes_chain_Forall w); [| exact Hch].
    intros url name s0 r s0' Hr. exact (success_iff_status_200 _ _ _ _ _ _ Hr). }
  rewrite <- Hiff.
  destruct (forallb success_of rs); [split; [by left |] | split; [by right |]];
    split; auto; discriminate.
Qed.

(** Without faults [ping_all_servers] returns 0 or 1 after exactly two
    requests, to the two configured urls in order. *)
Lemma ping_all_servers_two_requests (w : world) (s : state) :
  exists code s',
    ping_all_servers w s = (Ret code, s') /\
    (code = 0 \/ code = 1) /\
    net_calls s' =
    net_calls s ++
    [("https://make-it-rag.onrender.com/ping", 30);
     ("https://make-it-rag-1.onrender.com/ping", 30)].
Proof.
  unfold ping_all_servers.
  destruct (ping_servers_run w servers s) as (rs & s1 & _ & Hnet & Hrun).
  eexists _, _. split; [exact Hrun |].
  split; [destruct (forallb success_of rs); auto |].
  simpl. exact Hnet.
Qed.

(** X10. When every request raises and there is at least one target, the
    run returns 1 and ends with "Servers responding: 0/n" and the
    not-responding message. *)
Theorem all_failing_exits_1 (w : world) (srvs : list server) (s : state) :
  srvs <> [] ->
  (forall n url t, exists e, http w n url t = Failed e) ->
  exists before s',
    ping_servers w srvs s = (Ret 1, s') /\
    stdout s' = before ++ [summary_line 0 (length srvs); unhealthy_line].
Proof.
  intros Hne Hfail.
  destruct (ping_servers_run w srvs s) as (rs & s1 & Hch & _ & Hrun).
  assert (Hall : Forall (fun r => success_of r = false) rs).
  { eapply (probes_chain_Forall w); [| exact Hch].
    intros url name s0 r s0' Hr.
    destruct (Hfail (length (net_calls s0)) url 30) as [e He].
    rewrite (ping_server_failed_run _ _ _ _ _ He) in Hr.
    injection Hr as <- _. reflexivity. }
  assert (Hnot : forallb success_of rs = false).
  { pose proof (probes_chain_length _ _ _ _ _ Hch) as Hlen.
    destruct Hall as [| r rs Hr _]; [by destruct srvs |].
    simpl. by rewrite Hr. }
  rewrite Hnot, (successes_none _ Hall) in Hrun.
  exists (stdout s1 ++ [banner; [Text "SUMMARY"]; banner]). eexists.
  split; [exact Hrun |]. simpl. by rewrite <- app_assoc.
Qed.

(** Without faults, when every request gets a 200 response whose uptime
    entry (if any) can be formatted, the run returns 0 with "n/n". *)
Lemma all_ok_exits_0 (w : world) (srvs : list server) (s : state) :
  (forall n url t,
      exists resp,
        http w n url t = Responded resp /\
        status_code resp = 200 /\
        uptime_formattable resp = true) ->
  exists before s',
    ping_servers w srvs s = (Ret 0, s') /\
    stdout s' =
    before ++ [summary_line (length srvs) (length srvs); healthy_line].
Proof.
  intros Hok.
  destruct (ping_servers_run w srvs s) as (rs & s1 & Hch & _ & Hrun).
  assert (Hall : Forall (fun r => success_of r = true) rs).
  { eapply (probes_chain_Forall w); [| exact Hch].
    intros url name s0 r s0' Hr.
    destruct (Hok (length (net_calls s0)) url 30) as (resp & He & Hst & Hfmt).
    rewrite (ping_server_200_run _ _ _ _ _ He Hst Hfmt) in Hr.
    injection Hr as <- _. unfold success_of.
    rewrite response_info_success, Hst. reflexivity. }
  destruct (successes_every _ Hall) as [Hk Hb].
  rewrite Hb, Hk, (probes_chain_length _ _ _ _ _ Hch) in Hrun.
  exists (stdout s1 ++ [banner; [Text "SUMMARY"]; banner]). eexists.
  split; [exact Hrun |]. simpl. by rewrite <- app_assoc.
Qed.

(** ** The further properties at concrete worlds *)

Lemma failed_request_report_witness :
  request_outcome world_refused initial "https://a/ping" = Failed refused /\
  exists s',
    ping_server world_refused "https://a/ping" "A" initial =
    (Ret (failure_info "A" "https://a/ping" "connection_error" noon), s') /\
    stdout s' =
    [ [Text "2024-03-05 12:00:00: Pinging A at https://a/ping"];
      [Text "❌ A connection failed - server may be down"] ].
Proof.
  assert (H : request_outcome world_refused initial "https://a/ping"
              = Failed refused) by reflexivity.
  split; [exact H |].
  destruct (failed_request_report world_refused "https://a/ping" "A" initial
              refused H) as (s' & Hrun & Hout & _).
  exists s'. split; [exact Hrun |]. rewrite Hout. vm_compute. reflexivity.
Defined.

Lemma all_failing_exits_1_witness :
  servers <> [] /\
  (forall n url t, exists e, http world_refused n url t = Failed e) /\
  exists before s',
    ping_servers world_refused servers initial = (Ret 1, s') /\
    stdout s' =
    before ++ [[Text "Servers responding: 0/2"];
               [Text "⚠️ Some servers are not responding"]].
Proof.
  assert (H1 : servers <> []) by discriminate.
  assert (H2 : forall n url t, exists e, http world_refused n url t = Failed e)
    by (intros n url t; exists refused; destruct n; reflexivity).
  split; [exact H1 |]. split; [exact H2 |].
  destruct (all_failing_exits_1 world_refused servers initial H1 H2)
    as (before & s' & Hrun & Hout).
  exists before, s'. split; [exact Hrun | exact Hout].
Defined.

(** ** Without faults the program is the fault-free one *)

Lemma grun_bind {A B} (m : G A) (k : A -> G B) (s : state) :
  (m ≫= k) s =
  match m s with
  | (GRet a, s') => k a s'
  | (GRaise r, s') => (GRaise r, s')
  end.
Proof. reflexivity. Qed.

Lemma refines_embed {A} (m : M A) : refines (embed m) m.
Proof. intros s. reflexivity. Qed.

Lemma refines_ret {A} (a : A) : refines (mret a) (mret a).
Proof. intros s. reflexivity. Qed.

Lemma refines_bind {A B} (g : G A) (m : M A) (kg : A -> G B) (km : A -> M B) :
  refines g m -> (forall a, refines (kg a) (km a)) ->
  refines (g ≫= kg) (m ≫= km).
Proof.
  intros Hm Hk s. rewrite grun_bind, Hm. unfold embed at 2.
  rewrite run_bind. unfold embed at 1.
  destruct (m s) as [[a | e] s1]; [apply Hk | reflexivity].
Qed.

Lemma refines_dispatch {A} (c : exn_class) (hg : exn -> G A) (hm : exn -> M A)
    (gs : list (gclause A)) (hs : list (handler A)) :
  (forall e, refines (hg e) (hm e)) ->
  (forall e s, gdispatch gs (R_Exception e) s = embed (dispatch hs e) s) ->
  forall e s,
    gdispatch (OnException c hg :: gs) (R_Exception e) s
    = embed (dispatch ((c, hm) :: hs) e) s.
Proof.
  intros Hh Hrest e s. simpl.
  destruct (issubclass (exn_cls e) c); [apply Hh | apply Hrest].
Qed.

Lemma refines_dispatch_nil {A} (e : exn) (s : state) :
  gdispatch (@nil (gclause A)) (R_Exception e) s = embed (dispatch [] e) s.
Proof. reflexivity. Qed.

Lemma refines_try {A} (g : G A) (m : M A) (gs : list (gclause A))
    (hs : list (handler A)) :
  refines g m ->
  (forall e s, gdispatch gs (R_Exception e) s = embed (dispatch hs e) s) ->
  refines (gtry_except g gs) (try_except m hs).
Proof.
  intros Hm Hd s. unfold gtry_except, try_except. rewrite Hm.
  unfold embed at 1 2. destruct (m s) as [[a | e] s1]; [reflexivity |].
  apply Hd.
Qed.

Section Quiet.

Variable w : world.
Variable f : faults.
Hypothesis Hquiet : quiet f.

Lemma refines_print (l : line) : refines (Faulty.print f l) (print l).
Proof.
  intros s. unfold Faulty.print.
  destruct Hquiet as (_ & _ & Hp). by rewrite Hp.
Qed.

Lemma refines_requests_get (url : string) (t : Z) :
  refines (Faulty.requests_get w f url t) (requests_get w url t).
Proof.
  intros s. unfold Faulty.requests_get.
  destruct Hquiet as (Hi & _ & _). by rewrite Hi.
Qed.

Lemma refines_response_json (r : response) :
  refines (Faulty.response_json f r) (response_json r).
Proof.
  intros s. unfold Faulty.response_json.
  destruct Hquiet as (_ & Hj & _). by rewrite Hj.
Qed.

Lemma refines_parse_response (r : response) (info : pydict) :
  refines (Faulty.parse_response f r info) (parse_response r info).
Proof.
  unfold Faulty.parse_response, parse_response.
  apply refines_try.
  - apply refines_bind; [apply refines_response_json | intros v; apply refines_ret].
  - apply refines_dispatch; [intros _; apply refines_ret |].
    intros e s. apply refines_dispatch_nil.
Qed.

Lemma refines_print_results (name : string) (r : response) (info : pydict) :
  refines (Faulty.print_results f name r info) (print_results name r info).
Proof.
  unfold Faulty.print_results, print_results.
  destruct (status_code r =? 200); [| apply refines_print].
  apply refines_bind; [apply refines_print | intros _].
  apply refines_bind; [apply refines_embed | intros rt].
  apply refines_bind; [apply refines_embed | intros rt_text].
  apply refines_bind; [apply refines_print | intros _].
  destruct (contains "response_data" info); [| apply refines_ret].
  apply refines_bind; [apply refines_embed | intros rd].
  destruct rd; try apply refines_ret.
  apply refines_bind.
  - destruct (contains "message" d); [| apply refines_ret].
    apply refines_bind; [apply refines_embed | intros msg]. apply refines_print.
  - intros _. destruct (contains "uptime" d); [| apply refines_ret].
    apply refines_bind; [apply refines_embed | intros up].
    apply refines_bind; [apply refines_embed | intros up_text].
    apply refines_print.
Qed.

Lemma refines_ping_server_try (url name : string) :
  refines (Faulty.ping_server_try w f url name) (ping_server_try w url name).
Proof.
  unfold Faulty.ping_server_try, ping_server_try.
  apply refines_bind; [apply refines_embed | intros t0].
  apply refines_bind; [apply refines_print | intros _].
  apply refines_bind; [apply refines_requests_get | intros r].
  apply refines_bind; [apply refines_embed | intros t1].
  apply refines_bind; [apply refines_parse_response | intros info].
  apply refines_bind; [apply refines_print_results | intros _].
  apply refines_ret.
Qed.

Lemma refines_ping_server (url name : string) :
  refines (Faulty.ping_server w f url name) (ping_server w url name).
Proof.
  unfold Faulty.ping_server, ping_server.
  apply refines_try; [apply refines_ping_server_try |].
  unfold Faulty.ping_server_except, ping_server_except.
  repeat (apply refines_dispatch;
          [intros e; apply refines_bind; [apply refines_print | intros _];
           apply refines_bind; [apply refines_embed | intros t];
           apply refines_ret |]).
  intros e s. apply refines_dispatch_nil.
Qed.

Lemma refines_ping_each (srvs : list server) :
  forall acc, refines (Faulty.ping_each w f srvs acc) (ping_each w srvs acc).
Proof.
  induction srvs as [| srv rest IH]; intros acc; [apply refines_ret |].
  simpl. apply refines_bind; [apply refines_ping_server | intros r].
  apply refines_bind; [apply refines_print | intros _]. apply IH.
Qed.

Lemma refines_ping_servers (srvs : list server) :
  refines (Faulty.ping_servers w f srvs) (ping_servers w srvs).
Proof.
  unfold Faulty.ping_servers, ping_servers.
  do 3 (apply refines_bind; [apply refines_print | intros _]).
  apply refines_bind; [apply refines_ping_each | intros results].
  do 3 (apply refines_bind; [apply refines_print | intros _]).
  apply refines_bind; [apply refines_embed | intros k].
  apply refines_bind; [apply refines_print | intros _].
  destruct (k =? Z.of_nat (length results));
    (apply refines_bind; [apply refines_print | intros _; apply refines_ret]).
Qed.

End Quiet.

(** ** What escapes a probe *)

Lemma gpost_ret {A} (a : A) (Q : A -> Prop) (E : raised -> Prop) :
  Q a -> gpost (mret a : G A) Q E.
Proof. intros HQ s res s' H. injection H as <- _. exact HQ. Qed.

Lemma gpost_bind {A B} (m : G A) (k : A -> G B) (Q : A -> Prop)
    (Q' : B -> Prop) (E : raised -> Prop) :
  gpost m Q E -> (forall a, Q a -> gpost (k a) Q' E) -> gpost (m ≫= k) Q' E.
Proof.
  intros Hm Hk s res s' H. rewrite grun_bind in H.
  specialize (Hm s). destruct (m s) as [[a | x] s1].
  - exact (Hk a (Hm _ _ eq_refl) _ _ _ H).
  - injection H as <- _. exact (Hm _ _ eq_refl).
Qed.

Lemma gpost_weaken {A} (m : G A) (Q Q' : A -> Prop) (E : raised -> Prop) :
  gpost m Q E -> (forall a, Q a -> Q' a) -> gpost m Q' E.
Proof.
  intros Hm HQ s res s' H. specialize (Hm s res s' H).
  destruct res; [by apply HQ | exact Hm].
Qed.

Lemma covers_not_exit (f : faults) : covers f not_exit.
Proof. repeat split. Qed.

Lemma covers_is_exception (f : faults) : no_interrupt f -> covers f is_exception.
Proof.
  intros (Hg & Hj & Hp). split; [intros e; by eexists |].
  split; [intros n H; by rewrite Hg in H |].
  split; [intros n H; by destruct (Hj n) | intros k l H; by destruct (Hp k l)].
Qed.

Section Covered.

Variable w : world.
Variable f : faults.
Variable E : raised -> Prop.
Hypothesis HE : covers f E.

Lemma covers_raise_of (x : fault) :
  (x = Fault_interrupt -> E R_KeyboardInterrupt) -> E (raise_of x).
Proof.
  destruct HE as (He & _). destruct x as [e |]; simpl; [intros _; apply He | auto].
Qed.

Lemma gpost_embed {A} (m : M A) : gpost (embed m) (fun _ => True) E.
Proof.
  intros s res s' H. unfold embed in H. destruct HE as (He & _).
  destruct (m s) as [[a | e] s1]; injection H as <- _; [exact I | apply He].
Qed.

Lemma gpost_print (l : line) : gpost (Faulty.print f l) (fun _ => True) E.
Proof.
  intros s res s' H. unfold Faulty.print in H.
  destruct (print_raises f (length (stdout s)) l) as [x |] eqn:Hp.
  - injection H as <- _. apply covers_raise_of. intros ->.
    destruct HE as (_ & _ & _ & Hi). exact (Hi _ _ Hp).
  - injection H as <- _. exact I.
Qed.

Lemma gpost_requests_get (url : string) (t : Z) :
  gpost (Faulty.requests_get w f url t) (fun _ => True) E.
Proof.
  intros s res s' H. unfold Faulty.requests_get in H.
  destruct (get_interrupted f (length (net_calls s))) eqn:Hi.
  - injection H as <- _. destruct HE as (_ & Hg & _). exact (Hg _ Hi).
  - exact (gpost_embed _ _ _ _ H).
Qed.

Lemma gpost_parse_response (r : response) (info : pydict) :
  gpost (Faulty.parse_response f r info)
        (fun info' => exists v, info' = <["response_data" := v]> info) E.
Proof.
  intros s res s' H. unfold Faulty.parse_response, gtry_except in H.
  rewrite grun_bind in H. unfold Faulty.response_json in H.
  destruct (json_raises f (length (net_calls s))) as [[e |] |] eqn:Hj.
  - simpl in H. destruct (issubclass (exn_cls e) E_JSONDecodeError);
      injection H as <- _; [eauto | destruct HE as (He & _); apply He].
  - simpl in H. injection H as <- _.
    destruct HE as (_ & _ & Hi & _). exact (Hi _ Hj).
  - unfold embed, response_json in H.
    destruct (json_body r) as [v | msg]; simpl in H; injection H as <- _; eauto.
Qed.

Lemma gpost_print_results (name : string) (r : response) (info : pydict) :
  gpost (Faulty.print_results f name r info) (fun _ => True) E.
Proof.
  unfold Faulty.print_results.
  destruct (status_code r =? 200); [| apply gpost_print].
  eapply gpost_bind; [apply gpost_print | intros _ _].
  eapply gpost_bind; [apply gpost_embed | intros rt _].
  eapply gpost_bind; [apply gpost_embed | intros rt_text _].
  eapply gpost_bind; [apply gpost_print | intros _ _].
  destruct (contains "response_data" info); [| by apply gpost_ret].
  eapply gpost_bind; [apply gpost_embed | intros rd _].
  destruct rd; try by apply gpost_ret.
  eapply gpost_bind.
  - destruct (contains "message" d); [| by apply (gpost_ret _ (fun _ => True))].
    eapply gpost_bind; [apply gpost_embed | intros msg _].
    apply gpost_print.
  - intros _ _. destruct (contains "uptime" d); [| by apply gpost_ret].
    eapply gpost_bind; [apply gpost_embed | intros up _].
    eapply gpost_bind; [apply gpost_embed | intros up_text _].
    apply gpost_print.
Qed.

(** The [try] block returns a dictionary with a boolean under "success",
    or raises what the environment makes its operations raise. *)
Lemma gpost_ping_server_try (url name : string) :
  gpost (Faulty.ping_server_try w f url name) has_success E.
Proof.
  unfold Faulty.ping_server_try.
  eapply gpost_bind; [apply gpost_embed | intros t0 _].
  eapply gpost_bind; [apply gpost_print | intros _ _].
  eapply gpost_bind; [apply gpost_requests_get | intros resp _].
  eapply gpost_bind; [apply gpost_embed | intros t1 _].
  eapply gpost_bind; [apply gpost_parse_response | intros info [v ->]].
  eapply gpost_bind; [apply gpost_print_results | intros _ _].
  apply gpost_ret. eexists. reflexivity.
Qed.

End Covered.

(** What the three [except] clauses do with an exception: the line of the
    clause is printed, and what that [print] raises goes on to the caller. *)
Lemma faulty_handlers_run (w : world) (f : faults) (url name : string)
    (e0 : exn) (s : state) :
  gdispatch (Faulty.ping_server_except w f url name) (R_Exception e0) s =
  match print_raises f (length (stdout s)) (error_line name e0) with
  | Some x => (GRaise (raise_of x), s)
  | None =>
      (GRet (failure_info name url (error_kind e0) (clock w (clock_reads s))),
       mk_state (net_calls s) (S (clock_reads s))
                (stdout s ++ [error_line name e0]))
  end.
Proof.
  unfold Faulty.ping_server_except, gdispatch, error_kind, error_line.
  destruct (issubclass (exn_cls e0) E_Timeout).
  { rewrite grun_bind. unfold Faulty.print. simpl fstr.
    destruct (print_raises f _ _); reflexivity. }
  destruct (issubclass (exn_cls e0) E_ConnectionError).
  { rewrite grun_bind. unfold Faulty.print. simpl fstr.
    destruct (print_raises f _ _); reflexivity. }
  rewrite issubclass_Exception.
  rewrite grun_bind. unfold Faulty.print. simpl fstr.
  destruct (print_raises f _ _); reflexivity.
Qed.

Lemma faulty_handlers_interrupt (w : world) (f : faults) (url name : string)
    (s : state) :
  gdispatch (Faulty.ping_server_except w f url name) R_KeyboardInterrupt s
  = (GRaise R_KeyboardInterrupt, s).
Proof. reflexivity. Qed.

(** How a probe ends: with the value of its [try] block, with a failure
    dictionary, or by letting through an interrupt or the exception of the
    [print] of an [except] clause. *)
Lemma faulty_ping_server_ends
    (w : world) (f : faults) (url name : string) (s : state) :
  (no_interrupt f ->
   (forall k e0, print_raises f k (error_line name e0) = None) ->
   exists r s',
     Faulty.ping_server w f url name s = (GRet r, s') /\
     (forall x s1,
         Faulty.ping_server_try w f url name s = (GRaise x, s1) ->
         exists error t, r = failure_info name url error t)) /\
  (forall x s',
      Faulty.ping_server w f url name s = (GRaise x, s') ->
      x = R_KeyboardInterrupt \/
      (exists e e0 k,
          x = R_Exception e /\
          print_raises f k (error_line name e0) = Some (Fault_exn e))).
Proof.
  unfold Faulty.ping_server, gtry_except.
  destruct (Faulty.ping_server_try w f url name s) as [[r | x0] s1] eqn:Htry.
  - split.
    + intros _ _. exists r, s1. split; [reflexivity |].
      intros x s2 H. discriminate H.
    + intros x s' H. discriminate H.
  - split.
    + intros Hni Hp.
      destruct (gpost_ping_server_try w f is_exception
                  (covers_is_exception f Hni) url name _ _ _ Htry) as [e0 ->].
      rewrite faulty_handlers_run, Hp. eexists _, _. split; [reflexivity |].
      intros x s2 _. eauto.
    + intros x s' H.
      pose proof (gpost_ping_server_try w f not_exit (covers_not_exit f)
                    url name _ _ _ Htry) as Hx.
      destruct x0 as [e0 | code |]; [| destruct Hx |].
      * rewrite faulty_handlers_run in H.
        destruct (print_raises f (length (stdout s1)) (error_line name e0))
          as [[e |] |] eqn:Hp; [| | discriminate H];
          injection H as <- _; [right; eauto | by left].
      * rewrite faulty_handlers_interrupt in H. injection H as <- _. by left.
Qed.

(** ** The probe and the faults of its environment *)

Lemma quiet_no_faults : quiet no_faults.
Proof. repeat split. Qed.

Lemma refines_returns {A} (g : G A) (m : M A) (s s' : state) (a : A) :
  refines g m -> m s = (Ret a, s') -> g s = (GRet a, s').
Proof. intros H Hm. rewrite H. unfold embed. by rewrite Hm. Qed.

(** C2. [ping_server] catches every exception raised in its [try] block,
    by the request, [response.json()], the formatting or a [print]: it
    returns a result by value, a failure dictionary when the block raised,
    whenever no interrupt arrives from the keyboard and the [print] of the
    [except] clauses does not raise.  Conversely, what it lets through to
    its caller is a [KeyboardInterrupt] or the exception raised by the
    [print] of an [except] clause. *)
Theorem ping_server_lets_through
    (w : world) (f : faults) (url name : string) (s : state) :
  (no_interrupt f ->
   (forall k e0, print_raises f k (error_line name e0) = None) ->
   exists r s',
     Faulty.ping_server w f url name s = (GRet r, s') /\
     (forall x s1,
         Faulty.ping_server_try w f url name s = (GRaise x, s1) ->
         exists error t, r = failure_info name url error t)) /\
  (forall x s',
      Faulty.ping_server w f url name s = (GRaise x, s') ->
      x = R_KeyboardInterrupt \/
      (exists e e0 k,
          x = R_Exception e /\
          print_raises f k (error_line name e0) = Some (Fault_exn e))).
Proof. exact (faulty_ping_server_ends w f url name s). Qed.

(** C2 does not hold in every environment: with a stdout that cannot encode the cross
    mark, an unreachable host makes [ping_server] raise UnicodeEncodeError
    from the [print] of its [except] clause. *)
Lemma ping_server_propagates_print_error :
  Faulty.ping_server world_refused ascii_stdout "https://a/ping" "A" initial
  = (GRaise (R_Exception unicode_encode_error),
     mk_state [("https://a/ping", 30)] 1
       [[Text "2024-03-05 12:00:00: Pinging A at https://a/ping"]]) /\
  ~ (forall w f url name s,
        exists r s', Faulty.ping_server w f url name s = (GRet r, s')).
Proof.
  assert (H : Faulty.ping_server world_refused ascii_stdout "https://a/ping"
                "A" initial
              = (GRaise (R_Exception unicode_encode_error),
                 mk_state [("https://a/ping", 30)] 1
                   [[Text "2024-03-05 12:00:00: Pinging A at https://a/ping"]]))
    by (vm_compute; reflexivity).
  split; [exact H |].
  intros Hall.
  destruct (Hall world_refused ascii_stdout "https://a/ping" "A" initial)
    as (r & s' & Hr).
  rewrite H in Hr. discriminate Hr.
Qed.

Lemma ping_server_lets_through_witness :
  no_interrupt deep_json /\
  (forall k e0, print_raises deep_json k (error_line "A" e0) = None) /\
  exists r s',
    Faulty.ping_server world_deep_404 deep_json "https://a/ping" "A" initial
    = (GRet r, s') /\
    exists error t, r = failure_info "A" "https://a/ping" error t.
Proof.
  assert (H1 : no_interrupt deep_json)
    by (split; [reflexivity | split; intros; discriminate]).
  assert (H2 : forall k e0, print_raises deep_json k (error_line "A" e0) = None)
    by (intros k e0; reflexivity).
  split; [exact H1 |]. split; [exact H2 |].
  destruct (ping_server_lets_through world_deep_404 deep_json "https://a/ping"
              "A" initial) as [Hret _].
  destruct (Hret H1 H2) as (r & s' & Hrun & Hfail).
  exists r, s'. split; [exact Hrun |].
  apply (Hfail (R_Exception recursion_error)
           (mk_state [("https://a/ping", 30)] 2
              [[Text "2024-03-05 12:00:00: Pinging A at https://a/ping"]])).
  vm_compute. reflexivity.
Defined.

(** C5. In an environment without faults (no interrupt, [response.json()]
    returning a value or raising JSONDecodeError, stdout accepting every
    line), a response with a status code other than 200 gives the
    dictionary of a completed exchange: status code present, success False,
    and no error entry. *)
Theorem non_200_completed_without_faults
    (w : world) (f : faults) (url name : string) (s : state) (resp : response) :
  quiet f ->
  request_outcome w s url = Responded resp ->
  status_code resp <> 200 ->
  exists r s',
    Faulty.ping_server w f url name s = (GRet r, s') /\
    r = response_info_of name url resp (clock w (S (clock_reads s))) /\
    r !! "status_code" = Some (PInt (status_code resp)) /\
    r !! "success" = Some (PBool false) /\
    r !! "error" = None.
Proof.
  intros Hq Hout Hst.
  pose proof (ping_server_other_run w url name s resp Hout Hst) as Hrun.
  eexists _, _.
  split; [exact (refines_returns _ _ _ _ _
                   (refines_ping_server w f Hq url name) Hrun) |].
  split; [reflexivity |]. repeat split.
  rewrite response_info_success.
  destruct (Z.eqb_spec (status_code resp) 200); [done | reflexivity].
Qed.

(** C5 does not hold of every response: a 404 response whose body is an array
    nested 5000 deep, on which [response.json()] raises RecursionError, gives
    a failure dictionary, with an error entry and no status code. *)
Lemma non_200_json_fault_is_failure :
  request_outcome world_deep_404 initial "https://a/ping"
  = Responded (resp_deep 404) /\
  status_code (resp_deep 404) = 404 /\
  fst (Faulty.ping_server world_deep_404 deep_json "https://a/ping" "A" initial)
  = GRet (failure_info "A" "https://a/ping" (exn_str recursion_error) noon) /\
  failure_info "A" "https://a/ping" (exn_str recursion_error) noon !! "error"
  = Some (PStr (exn_str recursion_error)) /\
  failure_info "A" "https://a/ping" (exn_str recursion_error) noon
    !! "status_code" = None.
Proof.
  split; [reflexivity |]. split; [reflexivity |].
  split; [vm_compute; reflexivity |]. split; reflexivity.
Qed.

Lemma non_200_completed_without_faults_witness :
  quiet no_faults /\
  request_outcome world_404 initial "https://a/ping" = Responded resp_404 /\
  status_code resp_404 <> 200 /\
  exists r s',
    Faulty.ping_server world_404 no_faults "https://a/ping" "A" initial
    = (GRet r, s') /\
    r !! "status_code" = Some (PInt 404) /\
    r !! "success" = Some (PBool false) /\
    r !! "error" = None.
Proof.
  assert (H1 : request_outcome world_404 initial "https://a/ping"
               = Responded resp_404) by reflexivity.
  assert (H2 : status_code resp_404 <> 200)
    by (intros E; vm_compute in E; discriminate E).
  split; [exact quiet_no_faults |]. split; [exact H1 |]. split; [exact H2 |].
  destruct (non_200_completed_without_faults world_404 no_faults
              "https://a/ping" "A" initial resp_404 quiet_no_faults H1 H2)
    as (r & s' & Hrun & _ & Hc & Hs & He).
  exists r, s'. auto.
Defined.

(** C6. In an environment without faults, when [response.json()] rejects
    the body with JSONDecodeError, the result is that of a completed
    exchange (status code, no error entry) and its "response_data" entry is
    the raw text of the body. *)
Theorem text_body_kept_without_faults
    (w : world) (f : faults) (url name : string) (s : state)
    (resp : response) (msg : string) :
  quiet f ->
  request_outcome w s url = Responded resp ->
  json_body resp = JsonDecodeError msg ->
  exists r s',
    Faulty.ping_server w f url name s = (GRet r, s') /\
    r !! "response_data" = Some (PStr (text resp)) /\
    r !! "status_code" = Some (PInt (status_code resp)) /\
    r !! "success" = Some (PBool (status_code resp =? 200)) /\
    r !! "error" = None.
Proof.
  intros Hq Hout Hjson.
  destruct (text_body_is_kept w url name s resp msg Hout Hjson)
    as (r & s' & Hrun & Hrest).
  exists r, s'.
  split; [exact (refines_returns _ _ _ _ _
                   (refines_ping_server w f Hq url name) Hrun) |].
  exact Hrest.
Qed.

(** C6 does not hold of every body: a body that [response.json()] cannot parse
    because it is nested too deep raises RecursionError, which the inner
    [except json.JSONDecodeError] does not catch: the result is a failure
    dictionary without "response_data". *)
Lemma unparsed_body_json_fault_is_failure :
  request_outcome world_deep_200 initial "https://a/ping"
  = Responded (resp_deep 200) /\
  fst (Faulty.ping_server world_deep_200 deep_json "https://a/ping" "A" initial)
  = GRet (failure_info "A" "https://a/ping" (exn_str recursion_error) noon) /\
  failure_info "A" "https://a/ping" (exn_str recursion_error) noon
    !! "response_data" = None /\
  failure_info "A" "https://a/ping" (exn_str recursion_error) noon !! "error"
  = Some (PStr (exn_str recursion_error)).
Proof.
  split; [reflexivity |]. split; [vm_compute; reflexivity |].
  split; reflexivity.
Qed.

Lemma text_body_kept_without_faults_witness :
  quiet no_faults /\
  request_outcome world_pong initial "https://a/ping" = Responded resp_pong /\
  json_body resp_pong = JsonDecodeError "Expecting value" /\
  exists r s',
    Faulty.ping_server world_pong no_faults "https://a/ping" "A" initial
    = (GRet r, s') /\
    r !! "response_data" = Some (PStr "pong") /\
    r !! "error" = None.
Proof.
  assert (H1 : request_outcome world_pong initial "https://a/ping"
               = Responded resp_pong) by reflexivity.
  assert (H2 : json_body resp_pong = JsonDecodeError "Expecting value")
    by reflexivity.
  split; [exact quiet_no_faults |]. split; [exact H1 |]. split; [exact H2 |].
  destruct (text_body_kept_without_faults world_pong no_faults
              "https://a/ping" "A" initial resp_pong _ quiet_no_faults H1 H2)
    as (r & s' & Hrun & Hd & _ & _ & He).
  exists r, s'. auto.
Defined.

(** ** Further properties, in an environment without faults *)

(** X5. In an environment without faults, on a response with a status
    other than 200 the probe prints exactly two lines, the start line and
    the warning with the status code; the body is stored under
    "response_data" but nothing of it is printed. *)
Theorem non_200_report_without_faults
    (w : world) (f : faults) (url name : string) (s : state) (resp : response) :
  quiet f ->
  request_outcome w s url = Responded resp ->
  status_code resp <> 200 ->
  exists r s',
    Faulty.ping_server w f url name s = (GRet r, s') /\
    r !! "response_data" = Some (response_data_of resp) /\
    stdout s' =
    stdout s ++
    [start_line (clock w (clock_reads s)) name url;
     [Text ("⚠️ " +:+ name +:+ " returned unexpected status code: " +:+
            pretty (status_code resp))]].
Proof.
  intros Hq Hout Hst.
  destruct (non_200_report w url name s resp Hout Hst) as (r & s' & Hrun & Hrest).
  exists r, s'.
  split; [exact (refines_returns _ _ _ _ _
                   (refines_ping_server w f Hq url name) Hrun) |].
  exact Hrest.
Qed.

Lemma non_200_report_without_faults_witness :
  quiet no_faults /\
  request_outcome world_404 initial "https://a/ping" = Responded resp_404 /\
  status_code resp_404 <> 200 /\
  exists r s',
    Faulty.ping_server world_404 no_faults "https://a/ping" "A" initial
    = (GRet r, s') /\
    r !! "response_data" = Some (PStr "Not Found") /\
    stdout s' =
    [ [Text "2024-03-05 12:00:00: Pinging A at https://a/ping"];
      [Text "⚠️ A returned unexpected status code: 404"] ].
Proof.
  assert (H1 : request_outcome world_404 initial "https://a/ping"
               = Responded resp_404) by reflexivity.
  assert (H2 : status_code resp_404 <> 200)
    by (intros E; vm_compute in E; discriminate E).
  split; [exact quiet_no_faults |]. split; [exact H1 |]. split; [exact H2 |].
  destruct (non_200_report_without_faults world_404 no_faults "https://a/ping"
              "A" initial resp_404 quiet_no_faults H1 H2)
    as (r & s' & Hrun & Hd & Hout).
  exists r, s'. split; [exact Hrun |]. split; [exact Hd |].
  rewrite Hout. vm_compute. reflexivity.
Defined.

(** X6. In an environment without faults, on a 200 response whose uptime
    entry (if any) can be formatted the result is the dictionary of the
    response with success True, and the lines printed are the start line,
    the alive line, the response time with three decimals, then the message
    and uptime lines of a mapping body. *)
Theorem ok_response_report_without_faults
    (w : world) (f : faults) (url name : string) (s : state) (resp : response) :
  quiet f ->
  request_outcome w s url = Responded resp ->
  status_code resp = 200 ->
  uptime_formattable resp = true ->
  exists r s',
    Faulty.ping_server w f url name s = (GRet r, s') /\
    r = response_info_of name url resp (clock w (S (clock_reads s))) /\
    r !! "success" = Some (PBool true) /\
    stdout s' =
    stdout s ++
    [start_line (clock w (clock_reads s)) name url;
     [Text ("✅ " +:+ name +:+ " is alive (Status: 200)")];
     [Text ("   Response time: " +:+
            Fmt.format_float 3 (elapsed_seconds resp) +:+ "s")]] ++
    additional_lines (response_data_of resp).
Proof.
  intros Hq Hout Hst Hfmt.
  destruct (ok_response_report w url name s resp Hout Hst Hfmt)
    as (r & s' & Hrun & Hrest).
  exists r, s'.
  split; [exact (refines_returns _ _ _ _ _
                   (refines_ping_server w f Hq url name) Hrun) |].
  exact Hrest.
Qed.

Lemma ok_response_report_without_faults_witness :
  quiet no_faults /\
  request_outcome world_all_ok initial "https://a/ping" = Responded resp_ok /\
  status_code resp_ok = 200 /\
  uptime_formattable resp_ok = true /\
  exists r s',
    Faulty.ping_server world_all_ok no_faults "https://a/ping" "A" initial
    = (GRet r, s') /\
    r !! "success" = Some (PBool true) /\
    stdout s' =
    [ [Text "2024-03-05 12:00:00: Pinging A at https://a/ping"];
      [Text "✅ A is alive (Status: 200)"];
      [Text "   Response time: 0.250s"];
      [Text "   Message: ok"];
      [Text "   Uptime: 12.3s"] ].
Proof.
  assert (H1 : request_outcome world_all_ok initial "https://a/ping"
               = Responded resp_ok) by reflexivity.
  assert (H2 : status_code resp_ok = 200) by reflexivity.
  assert (H3 : uptime_formattable resp_ok = true) by (vm_compute; reflexivity).
  split; [exact quiet_no_faults |].
  split; [exact H1 |]. split; [exact H2 |]. split; [exact H3 |].
  destruct (ok_response_report_without_faults world_all_ok no_faults
              "https://a/ping" "A" initial resp_ok quiet_no_faults H1 H2 H3)
    as (r & s' & Hrun & _ & Hs & Hout).
  exists r, s'. split; [exact Hrun |]. split; [exact Hs |].
  rewrite Hout. vm_compute. reflexivity.
Defined.

(** X7. In an environment without faults, a 200 response is reported with
    success True, status code 200 and no error entry whenever its body is
    not a mapping (raw text included), or is a mapping without an "uptime"
    entry, or a mapping whose "uptime" is a float. *)
Theorem healthy_bodies_without_faults
    (w : world) (f : faults) (url name : string) (s : state) (resp : response) :
  quiet f ->
  request_outcome w s url = Responded resp ->
  status_code resp = 200 ->
  ((forall data, response_data_of resp <> PDict data) \/
   (exists data,
       response_data_of resp = PDict data /\
       (data !! "uptime" = None \/ exists x, data !! "uptime" = Some (PFloat x)))) ->
  exists r s',
    Faulty.ping_server w f url name s = (GRet r, s') /\
    r !! "success" = Some (PBool true) /\
    r !! "status_code" = Some (PInt 200) /\
    r !! "error" = None.
Proof.
  intros Hq Hout Hst Hbody.
  destruct (healthy_bodies w url name s resp Hout Hst Hbody)
    as (r & s' & Hrun & Hrest).
  exists r, s'.
  split; [exact (refines_returns _ _ _ _ _
                   (refines_ping_server w f Hq url name) Hrun) |].
  exact Hrest.
Qed.

Lemma healthy_bodies_without_faults_witness :
  quiet no_faults /\
  request_outcome world_pong initial "https://a/ping" = Responded resp_pong /\
  status_code resp_pong = 200 /\
  (forall data, response_data_of resp_pong <> PDict data) /\
  exists r s',
    Faulty.ping_server world_pong no_faults "https://a/ping" "A" initial
    = (GRet r, s') /\
    r !! "success" = Some (PBool true).
Proof.
  assert (H1 : request_outcome world_pong initial "https://a/ping"
               = Responded resp_pong) by reflexivity.
  assert (H2 : status_code resp_pong = 200) by reflexivity.
  assert (H3 : forall data, response_data_of resp_pong <> PDict data)
    by (intros data E; vm_compute in E; discriminate E).
  split; [exact quiet_no_faults |].
  split; [exact H1 |]. split; [exact H2 |]. split; [exact H3 |].
  destruct (healthy_bodies_without_faults world_pong no_faults "https://a/ping"
              "A" initial resp_pong quiet_no_faults H1 H2 (or_introl H3))
    as (r & s' & Hrun & Hs & _).
  exists r, s'. split; [exact Hrun | exact Hs].
Defined.

(** X9. In an environment without faults, [ping_all_servers] returns 0 or
    1 after exactly two requests, to the Node.js server and then to the
    Python server, each with a timeout of 30. *)
Theorem two_requests_without_faults (w : world) (f : faults) (s : state) :
  quiet f ->
  exists code s',
    Faulty.ping_all_servers w f s = (GRet code, s') /\
    (code = 0 \/ code = 1) /\
    net_calls s' =
    net_calls s ++
    [("https://make-it-rag.onrender.com/ping", 30);
     ("https://make-it-rag-1.onrender.com/ping", 30)].
Proof.
  intros Hq.
  destruct (ping_all_servers_two_requests w s) as (code & s' & Hrun & Hrest).
  exists code, s'.
  split; [exact (refines_returns _ _ _ _ _
                   (refines_ping_servers w f Hq servers) Hrun) |].
  exact Hrest.
Qed.

Lemma two_requests_without_faults_witness :
  quiet no_faults /\
  exists code s',
    Faulty.ping_all_servers world_one_of_two no_faults initial = (GRet code, s') /\
    (code = 0 \/ code = 1) /\
    net_calls s' =
    [("https://make-it-rag.onrender.com/ping", 30);
     ("https://make-it-rag-1.onrender.com/ping", 30)].
Proof.
  split; [exact quiet_no_faults |].
  destruct (two_requests_without_faults world_one_of_two no_faults initial
              quiet_no_faults) as (code & s' & Hrun & Hc & Hn).
  exists code, s'. split; [exact Hrun |]. split; [exact Hc | exact Hn].
Defined.

(** X11. In an environment without faults, when every request gets a 200
    response whose uptime entry (if any) can be formatted, the run returns
    0 and ends with "Servers responding: n/n" and the all-healthy message. *)
Theorem all_ok_exits_0_without_faults
    (w : world) (f : faults) (srvs : list server) (s : state) :
  quiet f ->
  (forall n url t,
      exists resp,
        http w n url t = Responded resp /\
        status_code resp = 200 /\
        uptime_formattable resp = true) ->
  exists before s',
    Faulty.ping_servers w f srvs s = (GRet 0, s') /\
    stdout s' =
    before ++ [summary_line (length srvs) (length srvs); healthy_line].
Proof.
  intros Hq Hok.
  destruct (all_ok_exits_0 w srvs s Hok) as (before & s' & Hrun & Hout).
  exists before, s'.
  split; [exact (refines_returns _ _ _ _ _
                   (refines_ping_servers w f Hq srvs) Hrun) |].
  exact Hout.
Qed.

Lemma all_ok_exits_0_without_faults_witness :
  quiet no_faults /\
  (forall n url t,
      exists resp,
        http world_all_ok n url t = Responded resp /\
        status_code resp = 200 /\
        uptime_formattable resp = true) /\
  exists before s',
    Faulty.ping_servers world_all_ok no_faults servers initial = (GRet 0, s') /\
    stdout s' =
    before ++ [[Text "Servers responding: 2/2"];
               [Text "🎉 All servers are healthy!"]].
Proof.
  assert (H : forall n url t,
             exists resp,
               http world_all_ok n url t = Responded resp /\
               status_code resp = 200 /\
               uptime_formattable resp = true).
  { intros n url t. exists resp_ok.
    split; [destruct n; reflexivity |].
    split; [reflexivity | vm_compute; reflexivity]. }
  split; [exact quiet_no_faults |]. split; [exact H |].
  destruct (all_ok_exits_0_without_faults world_all_ok no_faults servers
              initial quiet_no_faults H) as (before & s' & Hrun & Hout).
  exists before, s'. split; [exact Hrun | exact Hout].
Defined.

(** ** The run and the [__main__] block in any environment *)

Lemma gpost_print_from_env (f : faults) (l : line) :
  gpost (Faulty.print f l) (fun _ => True) (from_env f).
Proof.
  intros s res s' H. unfold Faulty.print in H.
  destruct (print_raises f (length (stdout s)) l) as [[e |] |] eqn:Hp;
    injection H as <- _; [right; eauto | by left | exact I].
Qed.

Lemma gpost_ping_server (w : world) (f : faults) (url name : string) :
  gpost (Faulty.ping_server w f url name) has_success (from_env f).
Proof.
  intros s res s' H.
  destruct (faulty_ping_server_ends w f url name s) as [_ Hraise].
  destruct res as [r | x].
  - unfold Faulty.ping_server, gtry_except in H.
    destruct (Faulty.ping_server_try w f url name s) as [[r0 | x0] s1] eqn:Htry.
    + injection H as <- _.
      exact (gpost_ping_server_try w f not_exit (covers_not_exit f)
               url name _ _ _ Htry).
    + pose proof (gpost_ping_server_try w f not_exit (covers_not_exit f)
                    url name _ _ _ Htry) as Hx.
      destruct x0 as [e0 | code |]; [| destruct Hx |].
      * rewrite faulty_handlers_run in H.
        destruct (print_raises f _ _); [discriminate H |].
        injection H as <- _. eexists. reflexivity.
      * rewrite faulty_handlers_interrupt in H. discriminate H.
  - destruct (Hraise _ _ H) as [-> | (e & e0 & k & -> & Hp)].
    + by left.
    + right. eauto.
Qed.

Lemma gpost_ping_each (w : world) (f : faults) (srvs : list server) :
  forall acc,
    Forall has_success acc ->
    gpost (Faulty.ping_each w f srvs acc) (Forall has_success) (from_env f).
Proof.
  induction srvs as [| srv rest IH]; intros acc Hacc.
  - apply gpost_ret. exact Hacc.
  - simpl. eapply gpost_bind; [apply gpost_ping_server | intros r Hr].
    eapply gpost_bind; [apply gpost_print_from_env | intros _ _].
    apply IH. apply Forall_app. split; [exact Hacc | by constructor].
Qed.

Lemma gpost_count_success (f : faults) (rs : list pydict) :
  Forall has_success rs ->
  gpost (embed (count_success rs)) (fun _ => True) (from_env f).
Proof.
  intros Hrs s res s' H. unfold embed in H.
  rewrite (count_success_run rs Hrs) in H. injection H as <- _. exact I.
Qed.

Lemma gpost_ping_servers (w : world) (f : faults) (srvs : list server) :
  gpost (Faulty.ping_servers w f srvs) (fun code => code = 0 \/ code = 1)
        (from_env f).
Proof.
  unfold Faulty.ping_servers.
  do 3 (eapply gpost_bind; [apply gpost_print_from_env | intros _ _]).
  eapply gpost_bind; [apply gpost_ping_each; constructor | intros rs Hrs].
  do 3 (eapply gpost_bind; [apply gpost_print_from_env | intros _ _]).
  eapply gpost_bind; [apply gpost_count_success; exact Hrs | intros k _].
  eapply gpost_bind; [apply gpost_print_from_env | intros _ _].
  destruct (k =? Z.of_nat (length rs));
    (eapply gpost_bind; [apply gpost_print_from_env | intros _ _]);
    apply gpost_ret; auto.
Qed.

(** The block, case by case on how [ping_all_servers] ends. *)
Lemma main_run (w : world) (f : faults) (s : state) :
  Faulty.main w f s =
  match Faulty.ping_all_servers w f s with
  | (GRet code, s1) => (GRaise (R_SystemExit code), s1)
  | (GRaise R_KeyboardInterrupt, s1) =>
      match print_raises f (length (stdout s1)) interrupted_line with
      | Some x => (GRaise (raise_of x), s1)
      | None => (GRaise (R_SystemExit 1), printed [interrupted_line] s1)
      end
  | (GRaise (R_Exception e0), s1) =>
      match print_raises f (length (stdout s1)) (unexpected_line e0) with
      | Some x => (GRaise (raise_of x), s1)
      | None => (GRaise (R_SystemExit 1), printed [unexpected_line e0] s1)
      end
  | (GRaise (R_SystemExit code), s1) => (GRaise (R_SystemExit code), s1)
  end.
Proof.
  unfold Faulty.main, gtry_except. rewrite grun_bind.
  destruct (Faulty.ping_all_servers w f s) as [[code | [e0 | code |]] s1];
    try reflexivity.
  - unfold gdispatch. rewrite issubclass_Exception, grun_bind.
    unfold Faulty.print, unexpected_line. simpl fstr.
    destruct (print_raises f _ _); reflexivity.
  - unfold gdispatch. rewrite grun_bind.
    unfold Faulty.print, interrupted_line.
    destruct (print_raises f _ _); reflexivity.
Qed.

(** X12. In any environment the [__main__] block ends the process through
    [sys.exit(0)] or [sys.exit(1)], unless the [print] of one of its own
    [except] clauses raises (an exception or an interrupt); it is
    [sys.exit(0)] only when [ping_all_servers] returned 0. *)
Theorem main_exits_0_or_1 (w : world) (f : faults) (s : state) :
  exists x s',
    Faulty.main w f s = (GRaise x, s') /\
    ((x = R_SystemExit 0 /\ Faulty.ping_all_servers w f s = (GRet 0, s')) \/
     x = R_SystemExit 1 \/
     (exists y k, x = raise_of y /\
                  print_raises f k interrupted_line = Some y) \/
     (exists y e0 k, x = raise_of y /\
                     print_raises f k (unexpected_line e0) = Some y)).
Proof.
  rewrite main_run.
  pose proof (gpost_ping_servers w f servers s) as Hpost.
  unfold Faulty.ping_all_servers.
  destruct (Faulty.ping_servers w f servers s) as [[code | x] s1].
  - specialize (Hpost _ _ eq_refl). simpl in Hpost.
    eexists _, _. split; [reflexivity |].
    destruct Hpost as [-> | ->]; auto.
  - specialize (Hpost _ _ eq_refl). simpl in Hpost.
    destruct Hpost as [-> | (e0 & k & l & -> & _)].
    + destruct (print_raises f (length (stdout s1)) interrupted_line)
        as [y |] eqn:Hp.
      * eexists _, _. split; [reflexivity |]. right. right. left. eauto.
      * eexists _, _. split; [reflexivity |]. right. by left.
    + destruct (print_raises f (length (stdout s1)) (unexpected_line e0))
        as [y |] eqn:Hp.
      * eexists _, _. split; [reflexivity |]. right. right. right. eauto.
      * eexists _, _. split; [reflexivity |]. right. by left.
Qed.

Lemma faulty_print_accepted (f : faults) (l : line) (s : state) :
  print_raises f (length (stdout s)) l = None ->
  Faulty.print f l s = (GRet tt, printed [l] s).
Proof. intros H. unfold Faulty.print. by rewrite H. Qed.

(** X13. In an environment without faults the [__main__] block ends the
    process through [sys.exit] with the code of the run, 0 or 1, and
    neither of its [except] clauses prints anything. *)
Theorem main_without_faults (w : world) (f : faults) (s : state) :
  quiet f ->
  exists code s',
    Faulty.main w f s = (GRaise (R_SystemExit code), s') /\
    ping_all_servers w s = (Ret code, s') /\
    (code = 0 \/ code = 1).
Proof.
  intros Hq.
  destruct (ping_all_servers_two_requests w s) as (code & s' & Hrun & Hc & _).
  exists code, s'. split; [| split; [exact Hrun | exact Hc]].
  rewrite main_run. unfold Faulty.ping_all_servers.
  rewrite (refines_returns _ _ _ _ _ (refines_ping_servers w f Hq servers) Hrun).
  reflexivity.
Qed.

Lemma main_without_faults_witness :
  quiet no_faults /\
  exists s',
    Faulty.main world_one_of_two no_faults initial
    = (GRaise (R_SystemExit 1), s').
Proof.
  split; [exact quiet_no_faults |].
  destruct (main_without_faults world_one_of_two no_faults initial
              quiet_no_faults) as (code & s' & Hmain & Hrun & _).
  exists s'. rewrite Hmain.
  assert (Hcode : fst (ping_all_servers world_one_of_two initial) = Ret 1)
    by (vm_compute; reflexivity).
  rewrite Hrun in Hcode. simpl in Hcode. injection Hcode as ->. reflexivity.
Defined.

(** ** Interrupts *)

Lemma faulty_ping_server_interrupted (w : world) (f : faults)
    (url name : string) (s : state) :
  get_interrupted f (length (net_calls s)) = true ->
  print_raises f (length (stdout s))
    (start_line (clock w (clock_reads s)) name url) = None ->
  Faulty.ping_server w f url name s =
  (GRaise R_KeyboardInterrupt,
   mk_state (net_calls s ++ [(url, 30)]) (S (clock_reads s))
            (stdout s ++ [start_line (clock w (clock_reads s)) name url])).
Proof.
  intros Hi Hp.
  unfold Faulty.ping_server, gtry_except, Faulty.ping_server_try.
  rewrite grun_bind.
  change (embed (now w) s)
    with (@GRet datetime (clock w (clock_reads s)),
          mk_state (net_calls s) (S (clock_reads s)) (stdout s)).
  cbv beta iota. rewrite grun_bind. simpl fstr.
  rewrite faulty_print_accepted by exact Hp.
  cbv beta iota. rewrite grun_bind.
  unfold Faulty.requests_get. simpl net_calls. rewrite Hi.
  reflexivity.
Qed.

(** X14. When the request of a probe is interrupted from the keyboard,
    [ping_server] returns no result and prints no failure line: the
    [KeyboardInterrupt] passes its three [except] clauses and reaches the
    caller, after the start line and one clock reading. *)
Theorem interrupted_probe
    (w : world) (f : faults) (url name : string) (s : state) :
  get_interrupted f (length (net_calls s)) = true ->
  print_raises f (length (stdout s))
    (start_line (clock w (clock_reads s)) name url) = None ->
  exists s',
    Faulty.ping_server w f url name s = (GRaise R_KeyboardInterrupt, s') /\
    net_calls s' = net_calls s ++ [(url, 30)] /\
    clock_reads s' = S (clock_reads s) /\
    stdout s' = stdout s ++ [start_line (clock w (clock_reads s)) name url].
Proof.
  intros Hi Hp. eexists.
  split; [exact (faulty_ping_server_interrupted w f url name s Hi Hp) |].
  repeat split.
Qed.

Lemma interrupted_probe_witness :
  get_interrupted interrupted_first (length (net_calls initial)) = true /\
  exists s',
    Faulty.ping_server world_all_ok interrupted_first "https://a/ping" "A"
      initial = (GRaise R_KeyboardInterrupt, s') /\
    stdout s' = [[Text "2024-03-05 12:00:00: Pinging A at https://a/ping"]].
Proof.
  assert (H1 : get_interrupted interrupted_first (length (net_calls initial))
               = true) by reflexivity.
  split; [exact H1 |].
  destruct (interrupted_probe world_all_ok interrupted_first "https://a/ping"
              "A" initial H1 eq_refl) as (s' & Hrun & _ & _ & Hout).
  exists s'. split; [exact Hrun |]. rewrite Hout. vm_compute. reflexivity.
Defined.

(** X15. When the first request of the run is interrupted from the
    keyboard and stdout accepts every line, the second server is not
    probed: the program prints the header, the start line of the first
    probe and the line of its [except KeyboardInterrupt] clause, and ends
    through [sys.exit(1)]. *)
Theorem interrupted_run (w : world) (f : faults) (s : state) :
  get_interrupted f (length (net_calls s)) = true ->
  (forall k l, print_raises f k l = None) ->
  exists s',
    Faulty.main w f s = (GRaise (R_SystemExit 1), s') /\
    net_calls s' =
    net_calls s ++ [("https://make-it-rag.onrender.com/ping", 30)] /\
    stdout s' =
    stdout s ++ header ++
    [start_line (clock w (clock_reads s)) "Node.js API Server"
       "https://make-it-rag.onrender.com/ping";
     interrupted_line].
Proof.
  intros Hi Hp. rewrite main_run.
  unfold Faulty.ping_all_servers, Faulty.ping_servers, servers.
  do 3 (rewrite grun_bind, faulty_print_accepted by apply Hp; cbv beta iota).
  rewrite !printed_printed. simpl app.
  rewrite grun_bind. cbn [Faulty.ping_each]. rewrite grun_bind.
  cbn [url_of name].
  rewrite faulty_ping_server_interrupted by (try apply Hp; exact Hi).
  cbv beta iota. rewrite Hp.
  eexists. split; [reflexivity |]. split; [reflexivity |].
  simpl. by rewrite <- !app_assoc.
Qed.

Lemma interrupted_run_witness :
  get_interrupted interrupted_first (length (net_calls initial)) = true /\
  (forall k l, print_raises interrupted_first k l = None) /\
  exists s',
    Faulty.main world_all_ok interrupted_first initial
    = (GRaise (R_SystemExit 1), s') /\
    net_calls s' = [("https://make-it-rag.onrender.com/ping", 30)].
Proof.
  assert (H1 : get_interrupted interrupted_first (length (net_calls initial))
               = true) by reflexivity.
  assert (H2 : forall k l, print_raises interrupted_first k l = None)
    by (intros k l; reflexivity).
  split; [exact H1 |]. split; [exact H2 |].
  destruct (interrupted_run world_all_ok interrupted_first initial H1 H2)
    as (s' & Hrun & Hnet & _).
  exists s'. split; [exact Hrun | exact Hnet].
Defined.

(** ** Examples with faults *)

(** A stdout that rejects the "Message" line, as for a message that holds a
    lone surrogate. *)
Example unprintable_message_is_a_failure :
  let f := mk_faults (fun _ => false) (fun _ => None)
             (fun _ l =>
                match l with
                | [Text t] =>
                    if String.prefix "   Message: " t
                    then Some (Fault_exn unicode_encode_error) else None
                | _ => None
                end) in
  fst (Faulty.ping_server world_all_ok f "https://a/ping" "A" initial)
  = GRet (failure_info "A" "https://a/ping" (exn_str unicode_encode_error) noon).
Proof. vm_compute. reflexivity. Qed.

(** On an ASCII stdout the first status line cannot be printed, nor the
    line of the [except] clause: the run ends in the [except Exception]
    clause of the [__main__] block. *)
Example run_on_ascii_stdout :
  Faulty.main world_one_of_two ascii_stdout initial
  = (GRaise (R_SystemExit 1),
     mk_state [("https://make-it-rag.onrender.com/ping", 30)] 2
       (header ++
        [start_line noon "Node.js API Server"
           "https://make-it-rag.onrender.com/ping";
         unexpected_line unicode_encode_error])).
Proof. vm_compute. reflexivity. Qed.

Example run_without_faults_is_the_run :
  Faulty.ping_all_servers world_one_of_two no_faults initial
  = embed (ping_all_servers world_one_of_two) initial.
Proof. vm_compute. reflexivity. Qed.
